(** * express-sequelize-crud: the route-set generator of [src/index.ts]

    A shallow embedding of [crud], of its five request handlers and of the
    [appendHeaders] middleware, with the properties of the specification
    stated and proved over it.

    What Express, Node and Sequelize do is not part of [src/index.ts]:
    - the JavaScript built-ins the file calls ([String.prototype.split],
      [trim], [Array.prototype.includes], [join], the coercions of [-], [+]
      and of template literals) are written out below;
    - [JSON.parse], [bodyParser.json()] and the conversion of a string to a
      number are parameters;
    - the Sequelize model is an interface ([SequelizeModel]) over a store of
      its own, and every call made to it is recorded in [calls]. *)

From Stdlib Require Import ZArith List String Ascii Bool Lia.
From stdpp Require Import base gmap strings pretty.
Import ListNotations.

Set Warnings "-register-all".


Local Open Scope Z_scope.

(** ** JavaScript strings

    Header values are Latin-1 strings (Node refuses anything else in a
    header), so a code unit is an [ascii]. *)

Module JsString.

(** [WhiteSpace] and [LineTerminator] of ECMAScript, as far as they fit in
    one byte: TAB, LF, VT, FF, CR, SP and NBSP. *)
Definition isWhiteSpace (c : ascii) : bool :=
  let n := nat_of_ascii c in
  ((9 <=? n)%nat && (n <=? 13)%nat) || (n =? 32)%nat || (n =? 160)%nat.

Fixpoint trimStart (s : string) : string :=
  match s with
  | EmptyString => EmptyString
  | String c r => if isWhiteSpace c then trimStart r else s
  end.

Fixpoint trimEnd (s : string) : string :=
  match s with
  | EmptyString => EmptyString
  | String c r =>
      match trimEnd r with
      | EmptyString => if isWhiteSpace c then EmptyString else String c EmptyString
      | r' => String c r'
      end
  end.

(** [s.trim()] *)
Definition trim (s : string) : string := trimEnd (trimStart s).

(** [s.split(sep)] for a separator of one character: never the empty
    list, [[""]] on the empty string. *)
Fixpoint split (sep : ascii) (s : string) : list string :=
  match s with
  | EmptyString => [EmptyString]
  | String c r =>
      if Ascii.eqb c sep then EmptyString :: split sep r
      else match split sep r with
           | h :: t => String c h :: t
           | [] => [String c EmptyString]
           end
  end.

(** [a.join(sep)] on an array of strings. *)
Fixpoint join (sep : string) (a : list string) : string :=
  match a with
  | [] => EmptyString
  | [x] => x
  | x :: rest => x +:+ sep +:+ join sep rest
  end.

(** [a.includes(x)] on an array of strings: strict equality. *)
Definition includes (a : list string) (x : string) : bool :=
  existsb (String.eqb x) a.

(** [s] holds the character [c]. *)
Fixpoint contains (c : ascii) (s : string) : bool :=
  match s with
  | EmptyString => false
  | String d r => Ascii.eqb d c || contains c r
  end.

Definition toLowerChar (c : ascii) : ascii :=
  let n := nat_of_ascii c in
  if ((65 <=? n)%nat && (n <=? 90)%nat)%bool then ascii_of_nat (n + 32) else c.

(** [s.toLowerCase()] on the ASCII letters, which is all a header name
    holds. *)
Fixpoint toLowerCase (s : string) : string :=
  match s with
  | EmptyString => EmptyString
  | String c r => String (toLowerChar c) (toLowerCase r)
  end.

End JsString.

(** ** JavaScript values *)

(** Values as [JSON.parse], the request and the model hand them over.
    A number is an integer ([JNum], exact in a double below [2^53]) or
    [NaN]; fractions and infinities are outside this model. The arithmetic
    and the printing of numbers below are those of JavaScript on the safe
    integers ([safeInteger]) only: a property that depends on them carries
    that bound. *)
Inductive JsValue : Type :=
| JUndefined
| JNull
| JBool (b : bool)
| JNum (n : Z)
| JNaN
| JStr (s : string)
| JArr (elements : list JsValue)
| JObj (properties : list (string * JsValue)).

(** What a [throw] carries, or what a promise is rejected with. *)
Inductive Exn : Type :=
| Error (message : string)        (* new Error(message) *)
| TypeError_notIterable           (* destructuring something not iterable *)
| Raised (reason : JsValue).      (* thrown by a built-in, a hook or the model *)

(** The completion of an evaluation: a value, or an exception. *)
Inductive Completion (A : Type) : Type :=
| Normal (a : A)
| Throw (e : Exn).
Arguments Normal {A} a.
Arguments Throw {A} e.

Module Js.

(** [ToString], as a template literal and [+] apply it. A number is
    printed in decimal, as JavaScript prints an integer below [10^21]. *)
Fixpoint ToString (v : JsValue) : string :=
  match v with
  | JUndefined => "undefined"
  | JNull => "null"
  | JBool b => if b then "true" else "false"
  | JNum n => pretty n
  | JNaN => "NaN"
  | JStr s => s
  | JArr l =>
      JsString.join ","
        (map (fun e => match e with
                       | JUndefined | JNull => EmptyString
                       | _ => ToString e
                       end) l)
  | JObj _ => "[object Object]"
  end.

(** [ToPrimitive]: an array or a plain object becomes its string. *)
Definition ToPrimitive (v : JsValue) : JsValue :=
  match v with
  | JArr _ | JObj _ => JStr (ToString v)
  | _ => v
  end.

Section Coercions.
(** [StringToNumber] of ECMAScript is taken as given ([None] is [NaN]). *)
Variable StringToNumber : string -> option Z.

Definition ToNumber (v : JsValue) : option Z :=
  match v with
  | JUndefined => None
  | JNull => Some 0
  | JBool b => Some (if b then 1 else 0)
  | JNum n => Some n
  | JNaN => None
  | JStr s => StringToNumber s
  | JArr _ | JObj _ => StringToNumber (ToString v)
  end.

(** [a - b]: exact, as in JavaScript while the operands and the result
    are safe integers (beyond [2^53] a double rounds). *)
Definition sub (a b : JsValue) : JsValue :=
  match ToNumber a, ToNumber b with
  | Some x, Some y => JNum (x - y)
  | _, _ => JNaN
  end.

(** [a + b]: concatenation as soon as one side is a string; on numbers
    exact, as in JavaScript while the operands and the result are safe
    integers. *)
Definition add (a b : JsValue) : JsValue :=
  let pa := ToPrimitive a in
  let pb := ToPrimitive b in
  match pa, pb with
  | JStr s, _ => JStr (s +:+ ToString pb)
  | _, JStr t => JStr (ToString pa +:+ t)
  | _, _ =>
      match ToNumber pa, ToNumber pb with
      | Some x, Some y => JNum (x + y)
      | _, _ => JNaN
      end
  end.
End Coercions.

(** The characters of a string, one string each: what iterating over a
    string yields. *)
Fixpoint characters (s : string) : list JsValue :=
  match s with
  | EmptyString => []
  | String c r => JStr (String c EmptyString) :: characters r
  end.

(** [const [a, b] = v]: the first two items of an iterable, [undefined]
    where it is too short, a [TypeError] where [v] is not iterable. *)
Definition destructure2 (v : JsValue) : Completion (JsValue * JsValue) :=
  match v with
  | JArr l => Normal (nth 0 l JUndefined, nth 1 l JUndefined)
  | JStr s => Normal (nth 0 (characters s) JUndefined, nth 1 (characters s) JUndefined)
  | _ => Throw TypeError_notIterable
  end.

End Js.

(** [Number.MAX_SAFE_INTEGER], [2^53 - 1]. *)
Definition MAX_SAFE_INTEGER : Z := 9007199254740991.

(** [Number.isSafeInteger(n)] *)
Definition safeInteger (n : Z) : Prop :=
  - MAX_SAFE_INTEGER <= n /\ n <= MAX_SAFE_INTEGER.

(** A range of rows [[from, to]]: safe integers, from row 0 on, the first
    no later than the last. *)
Definition validRange (from to : Z) : Prop :=
  0 <= from /\ from <= to /\ to <= MAX_SAFE_INTEGER.

(** ** Requests and responses *)

(** The query string of a list request; a parameter is [None] when the
    request does not have it, and a string otherwise (parameters that
    Express parses to arrays or objects are outside this model). *)
Record Query : Type := {
  range : option string;
  sort : option string;
  filter : option string
}.

Record Request : Type := {
  query : Query;
  params_id : string;        (* req.params.id *)
  body : JsValue             (* req.body, as the body parser left it *)
}.

(** [s ? a : b] on a string: only the empty string is falsy. *)
Definition truthy (s : string) : bool :=
  match s with
  | EmptyString => false
  | String _ _ => true
  end.

(** What [res.getHeader] may return besides [undefined]. *)
Inductive HeaderValue : Type :=
| HNum (n : Z)
| HStr (s : string)
| HArr (l : list string).

(** The response, as far as [src/index.ts] touches it. Header names are
    stored in lower case, as Node does; [sent] is the body given to
    [res.json]. A response starts with status 200. *)
Record Response : Type := {
  statusCode : Z;
  headers : gmap string HeaderValue;
  sent : option JsValue
}.

Definition getHeader (name : string) (res : Response) : option HeaderValue :=
  headers res !! JsString.toLowerCase name.

(** [res.set(name, value)], alias [res.header], on a string value that
    Node accepts: it throws on a value with a control character, which
    this function does not model. Printed integers and what
    [appendHeaders] joins from accepted values have none. *)
Definition setHeader (name value : string) (res : Response) : Response :=
  {| statusCode := statusCode res;
     headers := <[JsString.toLowerCase name := HStr value]> (headers res);
     sent := sent res |}.

(** [res.status(code)] *)
Definition status (code : Z) (res : Response) : Response :=
  {| statusCode := code; headers := headers res; sent := sent res |}.

(** [res.json(value)]: the body that is sent. The headers that Express
    adds on its own when it sends ([Content-Type], [Content-Length],
    [ETag]) are not recorded in [headers]. *)
Definition json (value : JsValue) (res : Response) : Response :=
  {| statusCode := statusCode res; headers := headers res; sent := Some value |}.

(** What a handler did with [next]. *)
Inductive Next : Type :=
| NotCalled                  (* the handler answered *)
| NextRoute                  (* next() *)
| NextError (e : Exn).       (* next(error) *)

(** ** The Sequelize model *)

(** The options object of [findAndCountAll]. *)
Record FindOptions : Type := {
  offset : JsValue;
  limit : JsValue;
  order : list JsValue;
  where_ : JsValue;
  raw : bool
}.

(** A call of a method of the model, with its arguments. *)
Inductive ModelCall : Type :=
| CallFindAndCountAll (options : FindOptions)
| CallFindByPk (id : string) (raw : bool)
| CallCreate (values : JsValue) (raw : bool)
| CallUpdate (values : JsValue) (where_ : JsValue) (returning : bool)
| CallDestroy (where_ : JsValue).

(** The five static methods of a Sequelize model that [src/index.ts] calls,
    over a store [S] that they read and change. A rejected promise is a
    [Throw]; [findByPk] resolves to [None] for [null]. *)
Class SequelizeModel (S : Type) : Type := {
  model_findAndCountAll : FindOptions -> S -> Completion (Z * list JsValue) * S;
  model_findByPk : string -> bool -> S -> Completion (option JsValue) * S;
  model_create : JsValue -> bool -> S -> Completion JsValue * S;
  model_update : JsValue -> JsValue -> bool -> S -> Completion JsValue * S;
  model_destroy : JsValue -> S -> Completion Z * S
}.

(** ** Handlers *)

(** What a handler runs in: the response it writes to, the store behind the
    model, and the calls made to the model so far. *)
Record World (S : Type) : Type := {
  res : Response;
  db : S;
  calls : list ModelCall
}.
Arguments res {S} w.
Arguments db {S} w.
Arguments calls {S} w.

(** The body of an [async] function: it changes the world and completes
    with a value or an exception; what was changed before a [throw]
    stays changed. *)
Definition Async (S A : Type) : Type := World S -> Completion A * World S.

Definition ret {S A} (a : A) : Async S A := fun w => (Normal a, w).

Definition bind {S A B} (m : Async S A) (k : A -> Async S B) : Async S B :=
  fun w =>
    match m w with
    | (Normal a, w') => k a w'
    | (Throw e, w') => (Throw e, w')
    end.

Notation "x <- m ;; k" := (bind m (fun x => k))
  (at level 20, m at level 99, k at level 200, only parsing).
Notation "' pat <- m ;; k" := (bind m (fun x => match x with pat => k end))
  (at level 20, pat pattern, m at level 99, k at level 200, only parsing).
Notation "m ;;; k" := (bind m (fun _ => k))
  (at level 98, k at level 200, only parsing, right associativity).

(** A synchronous evaluation that may throw. *)
Definition eval {S A} (c : Completion A) : Async S A := fun w => (c, w).

(** A statement on [res]. *)
Definition onRes {S} (f : Response -> Response) : Async S unit :=
  fun w => (Normal tt, {| res := f (res w); db := db w; calls := calls w |}).

(** [await model.method(...)]: the call is recorded, then run on the store. *)
Definition await {S A} (c : ModelCall) (method : S -> Completion A * S) : Async S A :=
  fun w =>
    let (r, db') := method (db w) in
    (r, {| res := res w; db := db'; calls := calls w ++ [c] |}).

(** An Express [RequestHandler]: [(req, res, next) => ...]. *)
Definition RequestHandler (S : Type) : Type := Request -> World S -> Next * World S.

(** [async (req, res, next) => { try { body } catch (error) { next(error) } }] *)
Definition tryCatchNext {S} (body : Request -> Async S unit) : RequestHandler S :=
  fun req w =>
    match body req w with
    | (Normal _, w') => (NotCalled, w')
    | (Throw error, w') => (NextError error, w')
    end.

(** A hook: [(data) => Promise<any> | any], awaited. *)
Definition Hook : Type := JsValue -> Completion JsValue.

Section Handlers.
Context {S : Type} `{SequelizeModel S}.
Variable JSON_parse : string -> Completion JsValue.
Variable StringToNumber : string -> option Z.

(** [p ? JSON.parse(p) : dflt] on a query parameter [p], [undefined]
    when the request does not have it. *)
Definition parseOr (p : option string) (dflt : JsValue) : Completion JsValue :=
  match p with
  | Some s => if truthy s then JSON_parse s else Normal dflt
  | None => Normal dflt
  end.

Definition getList (afterHook : Hook) : RequestHandler S :=
  tryCatchNext (fun req =>
    let range := range (query req) in
    let sort := sort (query req) in
    let filter := filter (query req) in
    parsed <- eval (parseOr range (JArr [JNum 0; JNum 100])) ;;
    '(from, to) <- eval (Js.destructure2 parsed) ;;
    let limit := Js.add StringToNumber (Js.sub StringToNumber to from) (JNum 1) in
    order <- eval (parseOr sort (JArr [JStr "id"; JStr "ASC"])) ;;
    where_ <- eval (parseOr filter (JObj [])) ;;
    let options :=
      {| offset := from; limit := limit; order := [order];
         where_ := where_; raw := true |} in
    '(count, rows) <- await (CallFindAndCountAll options)
                            (model_findAndCountAll options) ;;
    onRes (setHeader "Content-Range"
             (Js.ToString from +:+ "-"
              +:+ Js.ToString (Js.add StringToNumber from (JNum (Z.of_nat (length rows))))
              +:+ "/" +:+ Js.ToString (JNum count))) ;;;
    data <- eval (afterHook (JArr rows)) ;;
    onRes (json data)).

Definition getOne (afterHook : Hook) : RequestHandler S :=
  tryCatchNext (fun req =>
    record <- await (CallFindByPk (params_id req) true)
                    (model_findByPk (params_id req) true) ;;
    match record with
    | None =>
        onRes (fun res => json (JObj [("error", JStr "Record not found")]) (status 404 res))
    | Some record =>
        data <- eval (afterHook record) ;;
        onRes (json data)
    end).

Definition create : RequestHandler S :=
  tryCatchNext (fun req =>
    record <- await (CallCreate (body req) true) (model_create (body req) true) ;;
    onRes (fun res => json record (status 201 res))).

Definition update : RequestHandler S :=
  tryCatchNext (fun req =>
    record <- await (CallFindByPk (params_id req) false)
                    (model_findByPk (params_id req) false) ;;
    match record with
    | None =>
        onRes (fun res => json (JObj [("error", JStr "Record not found")]) (status 404 res))
    | Some _ =>
        let where_ := JObj [("id", JStr (params_id req))] in
        result <- await (CallUpdate (body req) where_ true)
                        (model_update (body req) where_ true) ;;
        onRes (json result)
    end).

Definition destroy : RequestHandler S :=
  tryCatchNext (fun req =>
    let where_ := JObj [("id", JStr (params_id req))] in
    await (CallDestroy where_) (model_destroy where_) ;;;
    onRes (json (JObj [("id", JStr (params_id req))]))).

End Handlers.

(** ** Header normalization *)

Definition exposeHeaders : string := "Access-Control-Expose-Headers".
Definition allowHeaders : string := "Access-Control-Allow-Headers".

(** The names the loop visits, in this order. *)
Definition corsHeaders : list string := [exposeHeaders; allowHeaders].

(** [res.getHeader(name) || ""]: [undefined], [0] and the empty string are
    falsy. *)
Definition orEmpty (v : option HeaderValue) : HeaderValue :=
  match v with
  | None => HStr EmptyString
  | Some (HNum 0) => HStr EmptyString
  | Some v => v
  end.

(** Lines 150 to 153: the entries of a header value, with [Content-Range]
    pushed when it is not among them. *)
Definition entries (rawValue : string) : list string :=
  map JsString.trim (JsString.split "," rawValue).

Definition withContentRange (headers : list string) : list string :=
  if JsString.includes headers "Content-Range" then headers
  else headers ++ ["Content-Range"].

(** The value line 154 writes for a header whose value was [rawValue]. *)
Definition normalized (rawValue : string) : string :=
  JsString.join ", " (withContentRange (entries rawValue)).

(** [typeof rawValue !== "string"] on [rawValue = value || ""]. *)
Definition notString (value : option HeaderValue) : bool :=
  match orEmpty value with
  | HStr _ => false
  | _ => true
  end.

(** What one turn of the loop that runs to its end (lines 146 to 154)
    leaves as the value of the header it visits. *)
Definition visited (value : option HeaderValue) : option HeaderValue :=
  match orEmpty value with
  | HStr rawValue => Some (HStr (normalized rawValue))
  | _ => value
  end.

(** The header value [new] lists every entry of [old], in the same order,
    and after them [Content-Range] exactly when [old] does not list it. *)
Definition extends (old new : string) : Prop :=
  (forall e, In e (entries old) -> In e (entries new))
  /\ (In "Content-Range"%string (entries old) -> entries new = entries old)
  /\ (~ In "Content-Range"%string (entries old) ->
      entries new = entries old ++ ["Content-Range"%string]).

(** The [for] loop of [appendHeaders] over the header names left to visit.
    Both ways out ([return next()] on a value that is not a string, and the
    end of the loop) call [next()]. *)
Fixpoint appendHeadersLoop (names : list string) (res : Response) : Response :=
  match names with
  | [] => res
  | name :: rest =>
      match orEmpty (getHeader name res) with
      | HStr rawValue => appendHeadersLoop rest (setHeader name (normalized rawValue) res)
      | _ => res
      end
  end.

Definition appendHeaders {S : Type} : RequestHandler S :=
  fun req w =>
    (NextRoute,
     {| res := appendHeadersLoop corsHeaders (res w); db := db w; calls := calls w |}).

(** ** The router *)

Inductive Method : Type := GET | POST | PUT | DELETE.

(** What [router.use] and [router.get], [post], [put], [delete] push on the
    stack of a router. *)
Inductive Layer (S : Type) : Type :=
| Use (handler : RequestHandler S)
| Route (method : Method) (path : string) (handler : RequestHandler S).
Arguments Use {S} handler.
Arguments Route {S} method path handler.

Definition Router (S : Type) : Type := list (Layer S).

(** The method and path of every route of a router, in order. *)
Definition routes {S : Type} (router : Router S) : list (Method * string) :=
  flat_map (fun layer => match layer with
                         | Use _ => []
                         | Route m p _ => [(m, p)]
                         end) router.

(** [enum ActionType]: a string enum, so a value of it is a string at run
    time. *)
Module ActionType.
Definition GET_LIST : string := "GET_LIST".
Definition GET_ONE : string := "GET_ONE".
Definition CREATE : string := "CREATE".
Definition UPDATE : string := "UPDATE".
Definition DELETE : string := "DELETE".

(** [Object.values(ActionType)] *)
Definition values : list string := [GET_LIST; GET_ONE; CREATE; UPDATE; DELETE].
End ActionType.

(** [Partial<Options<any>>] *)
Record Options : Type := {
  actionTypes : option (list string);
  afterGetList : option Hook;
  afterGetOne : option Hook
}.

Section Crud.
Context {S : Type} `{SequelizeModel S}.
Variable JSON_parse : string -> Completion JsValue.
Variable StringToNumber : string -> option Z.
Variable bodyParser_json : RequestHandler S.

(** The body of the [for] loop of [crud]: one [switch] on the router built
    so far. *)
Definition register (resource : string) (afterGetList afterGetOne : Hook)
    (actionType : string) (router : Router S) : Completion unit * Router S :=
  if String.eqb actionType ActionType.GET_LIST then
    (Normal tt, router ++ [Route GET resource (getList JSON_parse StringToNumber afterGetList)])
  else if String.eqb actionType ActionType.GET_ONE then
    (Normal tt, router ++ [Route GET (resource +:+ "/:id") (getOne afterGetOne)])
  else if String.eqb actionType ActionType.CREATE then
    (Normal tt, router ++ [Route POST resource create])
  else if String.eqb actionType ActionType.UPDATE then
    (Normal tt, router ++ [Route PUT (resource +:+ "/:id") update])
  else if String.eqb actionType ActionType.DELETE then
    (Normal tt, router ++ [Route DELETE (resource +:+ "/:id") destroy])
  else
    (Throw (Error ("Unknown action type " +:+ actionType)), router).

Fixpoint registerAll (resource : string) (afterGetList afterGetOne : Hook)
    (actionTypes : list string) (router : Router S) : Completion unit * Router S :=
  match actionTypes with
  | [] => (Normal tt, router)
  | actionType :: rest =>
      match register resource afterGetList afterGetOne actionType router with
      | (Normal _, router') => registerAll resource afterGetList afterGetOne rest router'
      | (Throw e, router') => (Throw e, router')
      end
  end.

(** [(options && options.field) || dflt]: an array and a function are
    truthy whatever they hold. *)
Definition optionOr {A : Type} (options : option Options)
    (field : Options -> option A) (dflt : A) : A :=
  match options with
  | Some o => match field o with
              | Some a => a
              | None => dflt
              end
  | None => dflt
  end.

(** [crud(resource, model, options)]: the router, or the exception thrown
    out of the loop, in which case the router built so far is lost with
    the call. *)
Definition crud (resource : string) (options : option Options) : Completion (Router S) :=
  let actionTypes := optionOr options actionTypes ActionType.values in
  let afterGetOne := optionOr options afterGetOne (fun data => Normal data) in
  let afterGetList := optionOr options afterGetList (fun data => Normal data) in
  let router := [] in
  let router := router ++ [Use bodyParser_json] in
  let router := router ++ [Use appendHeaders] in
  match registerAll resource afterGetList afterGetOne actionTypes router with
  | (Normal _, router) => Normal router
  | (Throw e, _) => Throw e
  end.

End Crud.

(** ** A reference model: one table of text columns, in memory *)

(** Modelled from the spec: Sequelize is no part of [src/index.ts]; the
    spec asks of the model [findAndCountAll], [findByPk], [create],
    [update] and [destroy] "with offset/limit/order/where semantics
    equivalent to a relational ORM", the filter being a "key/value equality
    map". [Table] is the least such thing: rows of named text columns, one
    of which is the primary key. *)
Module Table.

Definition Row : Type := list (string * string).

Record t : Type := {
  primaryKey : string;       (* the name of the primary key column *)
  rows : list Row
}.

Fixpoint attr (name : string) (row : Row) : option string :=
  match row with
  | [] => None
  | (k, v) :: rest => if String.eqb k name then Some v else attr name rest
  end.

(** Modelled from the spec: an equality of the "key/value equality map":
    column [name] of [row] holds [value]. *)
Definition has (name value : string) (row : Row) : bool :=
  match attr name row with
  | Some v => String.eqb v value
  | None => false
  end.

(** Modelled from the spec: [row] satisfies every equality of a [where]
    object. *)
Definition satisfies (where_ : list (string * JsValue)) (row : Row) : bool :=
  forallb (fun kv => has (fst kv) (Js.ToString (snd kv)) row) where_.

(** Modelled from the spec: the rows [findByPk(id)] chooses from, those
    whose primary key column holds [id]. *)
Definition byPk (table : t) (id : string) : list Row :=
  List.filter (has (primaryKey table) id) (rows table).

(** Modelled from the spec: the rows a [where] object selects. *)
Definition byWhere (table : t) (where_ : list (string * JsValue)) : list Row :=
  List.filter (satisfies where_) (rows table).

Definition toJs (row : Row) : JsValue :=
  JObj (map (fun kv => (fst kv, JStr (snd kv))) row).

Definition ofJs (values : list (string * JsValue)) : Row :=
  map (fun kv => (fst kv, Js.ToString (snd kv))) values.

Fixpoint set (name value : string) (row : Row) : Row :=
  match row with
  | [] => [(name, value)]
  | (k, v) :: rest =>
      if String.eqb k name then (k, value) :: rest else (k, v) :: set name value rest
  end.

Definition assign (values row : Row) : Row :=
  fold_left (fun r kv => set (fst kv) (snd kv) r) values row.

Fixpoint insertBy (le : Row -> Row -> bool) (x : Row) (l : list Row) : list Row :=
  match l with
  | [] => [x]
  | y :: rest => if le x y then x :: l else y :: insertBy le x rest
  end.

Definition sortBy (le : Row -> Row -> bool) (l : list Row) : list Row :=
  fold_right (insertBy le) [] l.

Definition column (field : string) (row : Row) : string :=
  match attr field row with
  | Some v => v
  | None => EmptyString
  end.

Definition rejected {A : Type} (why : string) (table : t) : Completion A * t :=
  (Throw (Raised (JStr why)), table).

Definition findAndCountAll (o : FindOptions) (table : t)
    : Completion (Z * list JsValue) * t :=
  match where_ o, offset o, limit o, order o with
  | JObj w, JNum off, JNum lim, [JArr [JStr field; JStr direction]] =>
      let found := byWhere table w in
      let le a b :=
        if String.eqb direction "DESC"
        then String.leb (column field b) (column field a)
        else String.leb (column field a) (column field b) in
      if (off <? 0) || (lim <? 0) then rejected "SequelizeDatabaseError" table
      else
        (Normal (Z.of_nat (length found),
                 map toJs (take (Z.to_nat lim) (drop (Z.to_nat off) (sortBy le found)))),
         table)
  | _, _, _, _ => rejected "SequelizeDatabaseError" table
  end.

Definition findByPk (id : string) (raw : bool) (table : t)
    : Completion (option JsValue) * t :=
  (Normal (head (map toJs (byPk table id))), table).

Definition create (values : JsValue) (raw : bool) (table : t)
    : Completion JsValue * t :=
  match values with
  | JObj vs =>
      let row := ofJs vs in
      match attr (primaryKey table) row with
      | Some id =>
          match byPk table id with
          | [] => (Normal (toJs row),
                   {| primaryKey := primaryKey table; rows := rows table ++ [row] |})
          | _ :: _ => rejected "SequelizeUniqueConstraintError" table
          end
      | None => rejected "SequelizeValidationError" table
      end
  | _ => rejected "SequelizeValidationError" table
  end.

Definition update (values where_ : JsValue) (returning : bool) (table : t)
    : Completion JsValue * t :=
  match values, where_ with
  | JObj vs, JObj w =>
      let change row := if satisfies w row then assign (ofJs vs) row else row in
      let changed := map (assign (ofJs vs)) (byWhere table w) in
      (Normal (JArr [JNum (Z.of_nat (length changed)); JArr (map toJs changed)]),
       {| primaryKey := primaryKey table; rows := map change (rows table) |})
  | _, _ => rejected "SequelizeDatabaseError" table
  end.

Definition destroy (where_ : JsValue) (table : t) : Completion Z * t :=
  match where_ with
  | JObj w =>
      (Normal (Z.of_nat (length (byWhere table w))),
       {| primaryKey := primaryKey table;
          rows := List.filter (fun row => negb (satisfies w row)) (rows table) |})
  | _ => rejected "SequelizeDatabaseError" table
  end.

End Table.

#[global] Instance TableModel : SequelizeModel Table.t := {
  model_findAndCountAll := Table.findAndCountAll;
  model_findByPk := Table.findByPk;
  model_create := Table.create;
  model_update := Table.update;
  model_destroy := Table.destroy
}.

(** ** What the examples run on *)

(** A response as Express hands it to the first handler. *)
Definition freshResponse : Response :=
  {| statusCode := 200; headers := ∅; sent := None |}.

Definition freshWorld {S : Type} (store : S) : World S :=
  {| res := freshResponse; db := store; calls := [] |}.

(** The text of the JSON array of the strings [id] and [ASC]. *)
Definition sortText : string :=
  let quote := String (ascii_of_nat 34) EmptyString in
  "[" +:+ quote +:+ "id" +:+ quote +:+ "," +:+ quote +:+ "ASC" +:+ quote +:+ "]".

(** [JSON.parse] on the texts the examples send, a [SyntaxError] on every
    other text. *)
Definition sampleParse (text : string) : Completion JsValue :=
  if String.eqb text "[1,2]" then Normal (JArr [JNum 1; JNum 2])
  else if String.eqb text "[0,100]" then Normal (JArr [JNum 0; JNum 100])
  else if String.eqb text "{}" then Normal (JObj [])
  else if String.eqb text sortText then Normal (JArr [JStr "id"; JStr "ASC"])
  else Throw (Raised (JStr "SyntaxError")).

(** [StringToNumber] on the decimal integers, with their sign and the
    white space around them; [NaN] on every other text. *)
Fixpoint sampleDigits (text : string) (acc : Z) : option Z :=
  match text with
  | EmptyString => Some acc
  | String c rest =>
      let n := Z.of_nat (nat_of_ascii c) in
      if (48 <=? n) && (n <=? 57) then sampleDigits rest (10 * acc + (n - 48)) else None
  end.

Definition sampleToNumber (text : string) : option Z :=
  match JsString.trim text with
  | EmptyString => Some 0
  | String "-" (String c rest) => Z.opp <$> sampleDigits (String c rest) 0
  | String "+" (String c rest) => sampleDigits (String c rest) 0
  | digits => sampleDigits digits 0
  end.

(** A body parser that leaves the request as it is and calls [next()]. *)
Definition sampleBodyParser {S : Type} : RequestHandler S :=
  fun req w => (NextRoute, w).

Definition users : Table.t :=
  {| Table.primaryKey := "id";
     Table.rows := [ [("id", "1"); ("name", "ada")];
                     [("id", "2"); ("name", "bob")];
                     [("id", "3"); ("name", "cy")] ] |}.

(** A response on which an earlier middleware has set headers. *)
Definition responseWith (hs : list (string * HeaderValue)) : Response :=
  {| statusCode := 200;
     headers := list_to_map (map (fun h => (JsString.toLowerCase (fst h), snd h)) hs);
     sent := None |}.

(** [Access-Control-Expose-Headers] set to an array, the other header to a
    string. *)
Definition exposedAsArray : Response :=
  responseWith [(exposeHeaders, HArr ["X-Total-Count"]);
                (allowHeaders, HStr "X-Requested-With")].

(** [Access-Control-Expose-Headers] set to an array, the other header not
    set. *)
Definition exposedAsArrayOnly : Response :=
  responseWith [(exposeHeaders, HArr ["X-Total-Count"])].

(** [Access-Control-Allow-Headers] set to an array, the other header to a
    string. *)
Definition allowedAsArray : Response :=
  responseWith [(exposeHeaders, HStr "X-Total-Count");
                (allowHeaders, HArr ["X-Requested-With"])].

(** Both headers set to strings, as the [cors] middleware does. *)
Definition bothStrings : Response :=
  responseWith [(exposeHeaders, HStr "X-Total-Count ,ETag");
                (allowHeaders, HStr "Content-Type, Content-Range")].

Definition worldOf (response : Response) : World Table.t :=
  {| res := response; db := {| Table.primaryKey := "id"; Table.rows := [] |}; calls := [] |}.

(** A table whose primary key is not the column [id]. *)
Definition accounts : Table.t :=
  {| Table.primaryKey := "uuid";
     Table.rows := [ [("uuid", "1"); ("id", "2"); ("name", "ada")];
                     [("uuid", "2"); ("id", "1"); ("name", "bob")] ] |}.

(** For a primary key column [pk] other than [id]: two rows whose [pk] and
    [id] columns hold each other's value. *)
Definition crossed (pk : string) : Table.t :=
  {| Table.primaryKey := pk;
     Table.rows := [ [(pk, "1"); ("id", "2")];
                     [(pk, "2"); ("id", "1")] ] |}.

(** A list request for the second and third rows. *)
Definition pageRequest : Request :=
  {| query := {| range := Some "[1,2]"; sort := None; filter := None |};
     params_id := ""; body := JUndefined |}.

(** The default hook of [crud]: [data => data]. *)
Definition identityHook : Hook := fun data => Normal data.

Definition emptyQuery : Query := {| range := None; sort := None; filter := None |}.

Definition requestFor (id : string) : Request :=
  {| query := emptyQuery; params_id := id; body := JObj [("name", JStr "zoe")] |}.

(** The method and path of the route that one [case] of the [switch] of
    [crud] registers; the last line stands for [DELETE]. *)
Definition routeFor (resource actionType : string) : Method * string :=
  if String.eqb actionType ActionType.GET_LIST then (GET, resource)
  else if String.eqb actionType ActionType.GET_ONE then (GET, resource +:+ "/:id")
  else if String.eqb actionType ActionType.CREATE then (POST, resource)
  else if String.eqb actionType ActionType.UPDATE then (PUT, resource +:+ "/:id")
  else (DELETE, resource +:+ "/:id").

(** A model whose database cannot be reached: every call is rejected. *)
Definition refused {A : Type} (store : unit) : Completion A * unit :=
  (Throw (Raised (JStr "SequelizeConnectionRefusedError")), store).

#[global] Instance OfflineModel : SequelizeModel unit := {
  model_findAndCountAll := fun _ => refused;
  model_findByPk := fun _ _ => refused;
  model_create := fun _ _ => refused;
  model_update := fun _ _ _ => refused;
  model_destroy := fun _ => refused
}.

(** A hook that throws. *)
Definition failingHook : Hook := fun _ => Throw (Error "hook failed").

(** [JSON.parse] as [sampleParse], and on the text of an array of one
    number. *)
Definition shortParse (text : string) : Completion JsValue :=
  if String.eqb text "[5]" then Normal (JArr [JNum 5]) else sampleParse text.

(** A list request with the given texts as [range], [sort] and [filter]. *)
Definition listRequest (range sort filter : option string) : Request :=
  {| query := {| range := range; sort := sort; filter := filter |};
     params_id := ""; body := JUndefined |}.

(** A response with a status and a header that an earlier middleware set. *)
Definition accepted : Response :=
  {| statusCode := 202;
     headers := list_to_map
                  [(JsString.toLowerCase "X-Powered-By", HStr "Express");
                   (JsString.toLowerCase exposeHeaders, HStr "ETag")];
     sent := None |}.

(** * Properties *)

(** ** Strings *)

Section StringFacts.
Import JsString.

Lemma trimEnd_idem (s : string) : trimEnd (trimEnd s) = trimEnd s.
Proof.
  induction s as [|c r IH]; [reflexivity|].
  simpl. destruct (trimEnd r) as [|d t] eqn:E.
  - destruct (isWhiteSpace c) eqn:W; simpl; [reflexivity|]. now rewrite W.
  - simpl in *. now rewrite IH.
Qed.

Lemma trimStart_idem (s : string) : trimStart (trimStart s) = trimStart s.
Proof.
  induction s as [|c r IH]; [reflexivity|].
  simpl. destruct (isWhiteSpace c) eqn:W; [exact IH|].
  simpl. now rewrite W.
Qed.

Lemma trimStart_trimEnd (s : string) : trimStart (trimEnd s) = trimEnd (trimStart s).
Proof.
  induction s as [|c r IH]; [reflexivity|].
  cbn [trimStart]. destruct (isWhiteSpace c) eqn:W.
  - rewrite <- IH. cbn [trimEnd].
    destruct (trimEnd r) as [|d t]; [now rewrite W|].
    cbn [trimStart]. now rewrite W.
  - cbn [trimEnd]. destruct (trimEnd r) as [|d t]; rewrite ?W; cbn [trimStart]; now rewrite W.
Qed.

Lemma trim_idem (s : string) : trim (trim s) = trim s.
Proof.
  unfold trim.
  now rewrite trimStart_trimEnd, trimStart_idem, trimEnd_idem.
Qed.

Lemma trim_after_space (s : string) : trim (String " " s) = trim s.
Proof. reflexivity. Qed.

Lemma contains_trimStart (c : ascii) (s : string) :
  contains c s = false -> contains c (trimStart s) = false.
Proof.
  induction s as [|d r IH]; [easy|].
  intros Hc. simpl. destruct (isWhiteSpace d); [|exact Hc].
  apply IH. simpl in Hc. now apply orb_false_iff in Hc.
Qed.

Lemma contains_trimEnd (c : ascii) (s : string) :
  contains c s = false -> contains c (trimEnd s) = false.
Proof.
  induction s as [|d r IH]; [easy|].
  simpl. intros Hc. apply orb_false_iff in Hc as [Hd Hr].
  specialize (IH Hr). destruct (trimEnd r) as [|e t].
  - destruct (isWhiteSpace d); simpl; [reflexivity|]. now rewrite Hd.
  - simpl in *. now rewrite Hd, IH.
Qed.

Lemma contains_trim (c : ascii) (s : string) :
  contains c s = false -> contains c (trim s) = false.
Proof. intros Hc. now apply contains_trimEnd, contains_trimStart. Qed.

Lemma split_not_nil (sep : ascii) (s : string) : split sep s <> [].
Proof.
  destruct s as [|c r]; simpl; [easy|].
  destruct (Ascii.eqb c sep); [easy|]. now destruct (split sep r).
Qed.

(** No piece of a split holds the separator. *)
Lemma split_pieces (sep : ascii) (s e : string) :
  In e (split sep s) -> contains sep e = false.
Proof.
  revert e. induction s as [|c r IH]; intros e; simpl.
  - now intros [<-|[]].
  - destruct (Ascii.eqb c sep) eqn:Hc.
    + intros [<-|He]; [reflexivity|now apply IH].
    + destruct (split sep r) as [|h t].
      * intros [<-|[]]. simpl. now rewrite Hc.
      * intros [<-|He].
        -- simpl. rewrite Hc. apply IH. now left.
        -- apply IH. now right.
Qed.

Lemma split_whole (sep : ascii) (x : string) :
  contains sep x = false -> split sep x = [x].
Proof.
  induction x as [|c r IH]; [reflexivity|].
  simpl. intros Hc. apply orb_false_iff in Hc as [Hc Hr].
  now rewrite Hc, (IH Hr).
Qed.

Lemma split_app (sep : ascii) (x s : string) :
  contains sep x = false ->
  split sep (x +:+ String sep s) = x :: split sep s.
Proof.
  induction x as [|c r IH]; simpl.
  - intros _. now rewrite Ascii.eqb_refl.
  - intros Hc. apply orb_false_iff in Hc as [Hc Hr].
    now rewrite Hc, (IH Hr).
Qed.

(** Splitting on the comma what was joined with comma and space gives the
    items back, each but the first after a space. *)
Lemma split_join (l : list string) :
  Forall (fun e => contains "," e = false) l ->
  split "," (join ", " l)
  = match l with
    | [] => [EmptyString]
    | x :: rest => x :: map (String " ") rest
    end.
Proof.
  induction 1 as [|x l Hx Hl IH]; [reflexivity|].
  destruct l as [|y rest].
  - simpl. now apply split_whole.
  - change (join ", " (x :: y :: rest))
      with (x +:+ String "," (String " " (join ", " (y :: rest)))).
    rewrite (split_app _ _ _ Hx). f_equal.
    change (split "," (String " " (join ", " (y :: rest))))
      with (match split "," (join ", " (y :: rest)) with
            | h :: t => String " " h :: t
            | [] => [String " " EmptyString]
            end).
    now rewrite IH.
Qed.

Lemma includes_In (l : list string) (x : string) :
  includes l x = true <-> In x l.
Proof.
  unfold includes. rewrite existsb_exists. split.
  - intros (y & Hy & E). apply String.eqb_eq in E. now subst.
  - intros Hx. exists x. split; [exact Hx|apply String.eqb_refl].
Qed.

End StringFacts.

(** ** Header normalization *)

Section HeaderFacts.
Import JsString.

Lemma orEmpty_string (s : string) : orEmpty (Some (HStr s)) = HStr s.
Proof. reflexivity. Qed.

Lemma getHeader_setHeader (name value : string) (res : Response) :
  getHeader name (setHeader name value res) = Some (HStr value).
Proof. unfold getHeader, setHeader. simpl. apply lookup_insert_eq. Qed.

Lemma getHeader_setHeader_ne (name other value : string) (res : Response) :
  toLowerCase name <> toLowerCase other ->
  getHeader other (setHeader name value res) = getHeader other res.
Proof. intros Hne. unfold getHeader, setHeader. simpl. now apply lookup_insert_ne. Qed.

Lemma setHeader_id (name value : string) (res : Response) :
  getHeader name res = Some (HStr value) -> setHeader name value res = res.
Proof.
  destruct res as [code hs out]. unfold getHeader, setHeader. simpl.
  intros Hv. f_equal. now apply insert_id.
Qed.

Lemma expose_ne_allow : toLowerCase exposeHeaders <> toLowerCase allowHeaders.
Proof. discriminate. Qed.

Lemma allow_ne_expose : toLowerCase allowHeaders <> toLowerCase exposeHeaders.
Proof. discriminate. Qed.

(** The loop over the two names, written out. *)
Lemma appendHeadersLoop_cors (res : Response) :
  appendHeadersLoop corsHeaders res
  = match orEmpty (getHeader exposeHeaders res) with
    | HStr a =>
        let res1 := setHeader exposeHeaders (normalized a) res in
        match orEmpty (getHeader allowHeaders res) with
        | HStr b => setHeader allowHeaders (normalized b) res1
        | _ => res1
        end
    | _ => res
    end.
Proof.
  unfold corsHeaders. cbn [appendHeadersLoop].
  destruct (orEmpty (getHeader exposeHeaders res)); try reflexivity.
  now rewrite (getHeader_setHeader_ne _ _ _ _ expose_ne_allow).
Qed.

Lemma entries_trimmed (s e : string) :
  In e (entries s) -> trim e = e /\ contains "," e = false.
Proof.
  unfold entries. rewrite in_map_iff. intros (e0 & <- & He0). split.
  - apply trim_idem.
  - apply contains_trim. exact (split_pieces _ _ _ He0).
Qed.

Lemma entries_not_nil (s : string) : entries s <> [].
Proof.
  unfold entries. pose proof (split_not_nil "," s) as Hs.
  now destruct (split "," s).
Qed.

Lemma withContentRange_In (l : list string) (e : string) :
  In e (withContentRange l) <-> In e l \/ e = "Content-Range"%string.
Proof.
  unfold withContentRange. destruct (includes l "Content-Range") eqn:Hi.
  - apply includes_In in Hi. split; [now left|]. now intros [He| ->].
  - rewrite in_app_iff. simpl. split.
    + intros [He|[<-|[]]]; [now left|now right].
    + intros [He| ->]; [now left|right; now left].
Qed.

Lemma withContentRange_idem (l : list string) :
  withContentRange (withContentRange l) = withContentRange l.
Proof.
  assert (Hi : includes (withContentRange l) "Content-Range" = true).
  { apply includes_In, withContentRange_In. now right. }
  unfold withContentRange at 1. now rewrite Hi.
Qed.

(** Reading back what was written: the entries of a normalized value are
    the entries that were joined. *)
Lemma entries_normalized (s : string) :
  entries (normalized s) = withContentRange (entries s).
Proof.
  unfold normalized.
  assert (Hall : forall e, In e (withContentRange (entries s)) ->
                           trim e = e /\ contains "," e = false).
  { intros e He. apply withContentRange_In in He as [He| ->].
    - exact (entries_trimmed _ _ He).
    - now split. }
  assert (Hne : withContentRange (entries s) <> []).
  { unfold withContentRange. destruct (includes _ _).
    - apply entries_not_nil.
    - now destruct (entries s). }
  revert Hall Hne. generalize (withContentRange (entries s)) as l. intros l Hall Hne.
  unfold entries. rewrite split_join.
  - destruct l as [|x rest]; [easy|].
    simpl. f_equal.
    + apply Hall. now left.
    + rewrite map_map. rewrite <- (map_id rest) at 2.
      apply map_ext_in. intros y Hy. rewrite trim_after_space.
      apply Hall. now right.
  - apply List.Forall_forall. intros e He. now apply Hall.
Qed.

Lemma normalized_idem (s : string) : normalized (normalized s) = normalized s.
Proof.
  unfold normalized at 1. now rewrite entries_normalized, withContentRange_idem.
Qed.

Lemma appendHeadersLoop_idem (res : Response) :
  appendHeadersLoop corsHeaders (appendHeadersLoop corsHeaders res)
  = appendHeadersLoop corsHeaders res.
Proof.
  rewrite (appendHeadersLoop_cors res).
  destruct (orEmpty (getHeader exposeHeaders res)) as [n|a|l] eqn:He;
    try (rewrite appendHeadersLoop_cors, He; reflexivity).
  cbv zeta.
  destruct (orEmpty (getHeader allowHeaders res)) as [n|b|l] eqn:Ha.
  - rewrite appendHeadersLoop_cors.
    rewrite getHeader_setHeader, orEmpty_string, normalized_idem. cbv zeta.
    rewrite (getHeader_setHeader_ne _ _ _ _ expose_ne_allow), Ha.
    apply setHeader_id, getHeader_setHeader.
  - rewrite appendHeadersLoop_cors.
    rewrite (getHeader_setHeader_ne _ _ _ _ allow_ne_expose).
    rewrite getHeader_setHeader, orEmpty_string, normalized_idem. cbv zeta.
    rewrite getHeader_setHeader, orEmpty_string, normalized_idem.
    rewrite (setHeader_id exposeHeaders).
    + apply setHeader_id, getHeader_setHeader.
    + rewrite (getHeader_setHeader_ne _ _ _ _ allow_ne_expose).
      apply getHeader_setHeader.
  - rewrite appendHeadersLoop_cors.
    rewrite getHeader_setHeader, orEmpty_string, normalized_idem. cbv zeta.
    rewrite (getHeader_setHeader_ne _ _ _ _ expose_ne_allow), Ha.
    apply setHeader_id, getHeader_setHeader.
Qed.

Lemma normalized_extends (s : string) : extends s (normalized s).
Proof.
  unfold extends. rewrite entries_normalized. unfold withContentRange.
  destruct (includes (entries s) "Content-Range") eqn:Hi.
  - apply includes_In in Hi. repeat split; easy.
  - assert (Hn : ~ In "Content-Range"%string (entries s)).
    { intros Hin. apply includes_In in Hin. congruence. }
    repeat split; try easy. intros e He. apply in_app_iff. now left.
Qed.

Lemma visited_not_string (v : option HeaderValue) :
  notString v = true -> visited v = v.
Proof. unfold notString, visited. now destruct (orEmpty v). Qed.

End HeaderFacts.

Section AppendHeaders.
Context {S : Type}.
Implicit Types (req : Request) (w : World S).

(** What the loop leaves in the two headers: the first is visited, the
    second only when the first did not stop the loop. *)
Lemma appendHeaders_headers req w :
  getHeader exposeHeaders (res (snd (appendHeaders req w)))
  = visited (getHeader exposeHeaders (res w))
  /\ getHeader allowHeaders (res (snd (appendHeaders req w)))
     = (if notString (getHeader exposeHeaders (res w))
        then getHeader allowHeaders (res w)
        else visited (getHeader allowHeaders (res w))).
Proof.
  unfold appendHeaders. cbn [snd res]. rewrite appendHeadersLoop_cors.
  unfold notString, visited.
  destruct (orEmpty (getHeader exposeHeaders (res w))) as [n|a|l] eqn:He;
    [easy| |easy].
  cbv zeta. destruct (orEmpty (getHeader allowHeaders (res w))) as [n|b|l] eqn:Ha.
  - rewrite getHeader_setHeader. split; [reflexivity|].
    now rewrite (getHeader_setHeader_ne _ _ _ _ expose_ne_allow).
  - rewrite (getHeader_setHeader_ne _ _ _ _ allow_ne_expose).
    now rewrite !getHeader_setHeader.
  - rewrite getHeader_setHeader. split; [reflexivity|].
    now rewrite (getHeader_setHeader_ne _ _ _ _ expose_ne_allow).
Qed.

Lemma appendHeaders_stopped req w :
  notString (getHeader exposeHeaders (res w)) = true ->
  snd (appendHeaders req w) = w.
Proof.
  unfold appendHeaders, notString. cbn [snd]. rewrite appendHeadersLoop_cors.
  destruct (orEmpty (getHeader exposeHeaders (res w))); [|easy|]; now destruct w.
Qed.

(** C2, as amended. [appendHeaders] calls [next()] and visits the two
    headers in order: [Access-Control-Expose-Headers] is left as it is when
    its value is not a string and is normalized otherwise;
    [Access-Control-Allow-Headers] is visited only when the first value was
    a string (or falsy), and is then treated the same way. A value that is
    not a string thus stops the loop: it skips that header and every header
    after it, and the response is as it was before the loop reached it. *)
Theorem appendHeaders_stops_at_non_string req w :
  fst (appendHeaders req w) = NextRoute
  /\ getHeader exposeHeaders (res (snd (appendHeaders req w)))
     = visited (getHeader exposeHeaders (res w))
  /\ getHeader allowHeaders (res (snd (appendHeaders req w)))
     = (if notString (getHeader exposeHeaders (res w))
        then getHeader allowHeaders (res w)
        else visited (getHeader allowHeaders (res w)))
  /\ (if notString (getHeader exposeHeaders (res w))
      then snd (appendHeaders req w) = w
      else if notString (getHeader allowHeaders (res w))
      then getHeader allowHeaders (res (snd (appendHeaders req w)))
           = getHeader allowHeaders (res w)
      else True).
Proof.
  destruct (appendHeaders_headers req w) as [He Ha].
  repeat split; try assumption.
  destruct (notString (getHeader exposeHeaders (res w))) eqn:Hn.
  - now apply appendHeaders_stopped.
  - destruct (notString (getHeader allowHeaders (res w))) eqn:Hm; [|exact I].
    rewrite Ha. now apply visited_not_string.
Qed.

(** C4. When both headers hold strings, running [appendHeaders] on its own
    result changes nothing more; each new value lists every entry of the
    old one (an entry being what line 150 reads: a piece between commas,
    trimmed), and lists [Content-Range] after them only when the old value
    did not list it. *)
Theorem appendHeaders_idempotent req w (a b : string) :
  getHeader exposeHeaders (res w) = Some (HStr a) ->
  getHeader allowHeaders (res w) = Some (HStr b) ->
  appendHeaders req (snd (appendHeaders req w)) = appendHeaders req w
  /\ (exists a' b' : string,
        getHeader exposeHeaders (res (snd (appendHeaders req w))) = Some (HStr a')
        /\ getHeader allowHeaders (res (snd (appendHeaders req w))) = Some (HStr b')
        /\ extends a a' /\ extends b b').
Proof.
  intros Ha Hb. split.
  - unfold appendHeaders. cbn [snd res db calls].
    now rewrite appendHeadersLoop_idem.
  - exists (normalized a), (normalized b).
    destruct (appendHeaders_headers req w) as (He & Hal).
    rewrite He, Hal. unfold notString, visited. rewrite Ha, Hb. cbn.
    repeat split; apply normalized_extends.
Qed.

(** C9, as amended. A header that is absent or empty when the loop visits
    it is set to [", Content-Range"], a list whose first entry is the empty
    string. The loop always visits [Access-Control-Expose-Headers]; it
    visits [Access-Control-Allow-Headers] when the value of the first
    header was a string or falsy. *)
Theorem appendHeaders_on_empty req w :
  (getHeader exposeHeaders (res w) = None
   \/ getHeader exposeHeaders (res w) = Some (HStr EmptyString) ->
   getHeader exposeHeaders (res (snd (appendHeaders req w)))
   = Some (HStr ", Content-Range"))
  /\ (getHeader allowHeaders (res w) = None
      \/ getHeader allowHeaders (res w) = Some (HStr EmptyString) ->
      notString (getHeader exposeHeaders (res w)) = false ->
      getHeader allowHeaders (res (snd (appendHeaders req w)))
      = Some (HStr ", Content-Range"))
  /\ entries ", Content-Range" = [EmptyString; "Content-Range"%string].
Proof.
  destruct (appendHeaders_headers req w) as (He & Hal).
  repeat split.
  - rewrite He. now intros [-> | ->].
  - rewrite Hal. intros Hv ->. now destruct Hv as [-> | ->].
Qed.

End AppendHeaders.

(** The witness of C4: both headers as the [cors] middleware sets them. *)
Lemma appendHeaders_idempotent_witness :
  appendHeaders (requestFor "1") (snd (appendHeaders (requestFor "1") (worldOf bothStrings)))
  = appendHeaders (requestFor "1") (worldOf bothStrings)
  /\ (exists a' b' : string,
        getHeader exposeHeaders
          (res (snd (appendHeaders (requestFor "1") (worldOf bothStrings)))) = Some (HStr a')
        /\ getHeader allowHeaders
             (res (snd (appendHeaders (requestFor "1") (worldOf bothStrings)))) = Some (HStr b')
        /\ extends "X-Total-Count ,ETag" a' /\ extends "Content-Type, Content-Range" b').
Proof.
  apply (appendHeaders_idempotent (requestFor "1") (worldOf bothStrings)
           "X-Total-Count ,ETag" "Content-Type, Content-Range").
  - vm_compute. reflexivity.
  - vm_compute. reflexivity.
Defined.

(** The witness of C9: a response on which no header is set. *)
Lemma appendHeaders_on_empty_witness :
  getHeader exposeHeaders
    (res (snd (appendHeaders (requestFor "1") (worldOf freshResponse))))
  = Some (HStr ", Content-Range")
  /\ getHeader allowHeaders
       (res (snd (appendHeaders (requestFor "1") (worldOf freshResponse))))
     = Some (HStr ", Content-Range").
Proof.
  destruct (appendHeaders_on_empty (requestFor "1") (worldOf freshResponse))
    as (He & Ha & _).
  split.
  - apply He. left. vm_compute. reflexivity.
  - apply Ha.
    + left. vm_compute. reflexivity.
    + vm_compute. reflexivity.
Defined.

(** The counterexample to C2 as stated: with an array as the value of
    [Access-Control-Expose-Headers], the other header, a string, is not
    processed; it would have become ["X-Requested-With, Content-Range"]. *)
Lemma appendHeaders_skips_the_rest :
  notString (getHeader exposeHeaders exposedAsArray) = true
  /\ getHeader allowHeaders
       (res (snd (appendHeaders (requestFor "1") (worldOf exposedAsArray))))
     <> visited (getHeader allowHeaders exposedAsArray).
Proof.
  split; [vm_compute; reflexivity|].
  intros Heq. vm_compute in Heq. discriminate Heq.
Qed.

(** The other order: with the array in [Access-Control-Allow-Headers], the
    first header has been normalized before the loop stops. *)
Example appendHeaders_array_second :
  getHeader exposeHeaders
    (res (snd (appendHeaders (requestFor "1") (worldOf allowedAsArray))))
  = Some (HStr "X-Total-Count, Content-Range")
  /\ getHeader allowHeaders
       (res (snd (appendHeaders (requestFor "1") (worldOf allowedAsArray))))
     = Some (HArr ["X-Requested-With"%string]).
Proof. vm_compute. split; reflexivity. Qed.

(** The counterexample to C9 as stated: with an array as the value of
    [Access-Control-Expose-Headers], an absent
    [Access-Control-Allow-Headers] stays absent. *)
Lemma appendHeaders_leaves_absent :
  getHeader allowHeaders exposedAsArrayOnly = None
  /\ getHeader allowHeaders
       (res (snd (appendHeaders (requestFor "1") (worldOf exposedAsArrayOnly))))
     <> Some (HStr ", Content-Range").
Proof.
  split; [vm_compute; reflexivity|].
  intros Heq. vm_compute in Heq. discriminate Heq.
Qed.

(** ** The route-set generator *)

Section CrudFacts.
Context {S : Type} `{SequelizeModel S}.
Variable JSON_parse : string -> Completion JsValue.
Variable StringToNumber : string -> option Z.
Variable bodyParser_json : RequestHandler S.

Local Abbreviation register' := (register JSON_parse StringToNumber).
Local Abbreviation registerAll' := (registerAll JSON_parse StringToNumber).
Local Abbreviation crud' := (crud JSON_parse StringToNumber bodyParser_json).

(** The [default] branch: a value that is none of the five. *)
Lemma register_unknown resource hookList hookOne (a : string) (router : Router S) :
  ~ In a ActionType.values ->
  register' resource hookList hookOne a router
  = (Throw (Error ("Unknown action type " +:+ a)), router).
Proof.
  intros Hout. unfold register.
  repeat match goal with
         | |- context [String.eqb a ?v] =>
             destruct (String.eqb_spec a v) as [->|_];
             [exfalso; apply Hout; cbn; tauto|]
         end.
  reflexivity.
Qed.

(** One of the five [case]s: a route is pushed and the loop goes on. *)
Lemma register_known resource hookList hookOne (a : string) (router : Router S) :
  In a ActionType.values ->
  exists route,
    register' resource hookList hookOne a router = (Normal tt, router ++ [route]).
Proof.
  cbn. intros [<-|[<-|[<-|[<-|[<-|[]]]]]]; eexists; reflexivity.
Qed.

(** The loop stops at the first value that is none of the five, whatever
    was registered for the values before it. *)
Lemma registerAll_unknown resource hookList hookOne (l : list string) :
  (exists a, In a l /\ ~ In a ActionType.values) ->
  forall router,
  exists before a rest router',
    l = before ++ a :: rest
    /\ Forall (fun x => In x ActionType.values) before
    /\ ~ In a ActionType.values
    /\ registerAll' resource hookList hookOne l router
       = (Throw (Error ("Unknown action type " +:+ a)), router').
Proof.
  induction l as [|x l IH]; intros (a & Ha & Hout) router.
  - destruct Ha.
  - destruct (in_dec string_dec x ActionType.values) as [Hx|Hx].
    + destruct Ha as [->|Ha]; [contradiction|].
      destruct (register_known resource hookList hookOne x router Hx) as [route Hr].
      destruct (IH (ex_intro _ a (conj Ha Hout)) (router ++ [route]))
        as (before & b & rest & router' & -> & Hb & Hbout & Hrun).
      exists (x :: before), b, rest, router'.
      repeat split; [now constructor|assumption|].
      cbn [registerAll]. now rewrite Hr.
    + exists [], x, l, router.
      repeat split; [constructor|assumption|].
      cbn [registerAll]. now rewrite register_unknown.
Qed.

(** C1, as amended. When [options] or its [actionTypes] is not given, the
    router holds the two middlewares and then the five routes, in the order
    of the enumeration. When [actionTypes] is the empty list (an array, and
    so truthy), nothing replaces it: the loop has nothing to register and
    the router holds the two middlewares only. *)
Theorem crud_default_action_types (resource : string) (options : option Options) :
  (match options with Some o => actionTypes o | None => None end = None ->
   crud' resource options
   = Normal
       [ Use bodyParser_json;
         Use appendHeaders;
         Route GET resource
           (getList JSON_parse StringToNumber
              (optionOr options afterGetList (fun data => Normal data)));
         Route GET (resource +:+ "/:id")
           (getOne (optionOr options afterGetOne (fun data => Normal data)));
         Route POST resource create;
         Route PUT (resource +:+ "/:id") update;
         Route DELETE (resource +:+ "/:id") destroy ])
  /\ (match options with Some o => actionTypes o | None => None end = Some [] ->
      crud' resource options = Normal [Use bodyParser_json; Use appendHeaders]).
Proof.
  split; intros Hopt; unfold crud.
  - assert (Hall : optionOr options actionTypes ActionType.values = ActionType.values).
    { unfold optionOr. destruct options as [o|]; [|reflexivity]. now rewrite Hopt. }
    rewrite Hall. reflexivity.
  - assert (Hnone : optionOr options actionTypes ActionType.values = []).
    { unfold optionOr. destruct options as [o|]; [|discriminate]. now rewrite Hopt. }
    rewrite Hnone. reflexivity.
Qed.

(** C3. When [actionTypes] holds a value that is none of the five, [crud]
    throws [Error("Unknown action type " + value)] for the first such
    value, also when values before it were among the five: the call
    returns no router, so no route is registered for anyone to use. *)
Theorem crud_unknown_action_type (resource : string) (o : Options) (l : list string) :
  actionTypes o = Some l ->
  (exists a, In a l /\ ~ In a ActionType.values) ->
  (exists before a rest,
     l = before ++ a :: rest
     /\ Forall (fun x => In x ActionType.values) before
     /\ ~ In a ActionType.values
     /\ crud' resource (Some o) = Throw (Error ("Unknown action type " +:+ a)))
  /\ (forall router, crud' resource (Some o) <> Normal router).
Proof.
  intros Hl Hbad.
  assert (Hthrow : exists before a rest,
             l = before ++ a :: rest
             /\ Forall (fun x => In x ActionType.values) before
             /\ ~ In a ActionType.values
             /\ crud' resource (Some o) = Throw (Error ("Unknown action type " +:+ a))).
  { assert (Hlist : optionOr (Some o) actionTypes ActionType.values = l).
    { unfold optionOr. now rewrite Hl. }
    unfold crud. rewrite Hlist.
    destruct (registerAll_unknown resource
                (optionOr (Some o) afterGetList (fun data => Normal data))
                (optionOr (Some o) afterGetOne (fun data => Normal data))
                l Hbad ([] ++ [Use bodyParser_json] ++ [Use appendHeaders]))
      as (before & a & rest & router' & Hsplit & Hbefore & Hout & Hrun).
    exists before, a, rest. repeat split; try assumption.
    cbn [app] in Hrun |- *. now rewrite Hrun. }
  split; [exact Hthrow|].
  destruct Hthrow as (_ & a & _ & _ & _ & _ & Hrun).
  intros router. rewrite Hrun. discriminate.
Qed.

End CrudFacts.

(** The witness of C1: no options, and an empty list of action types. *)
Lemma crud_default_action_types_witness :
  (exists router,
     crud sampleParse sampleToNumber sampleBodyParser (S := Table.t) "/users" None
     = Normal router
     /\ routes router
        = [(GET, "/users"); (GET, "/users/:id"); (POST, "/users");
           (PUT, "/users/:id"); (DELETE, "/users/:id")]%string)
  /\ crud sampleParse sampleToNumber sampleBodyParser (S := Table.t) "/users"
       (Some {| actionTypes := Some []; afterGetList := None; afterGetOne := None |})
     = Normal [Use sampleBodyParser; Use appendHeaders].
Proof.
  split.
  - eexists. split.
    + apply (proj1 (crud_default_action_types sampleParse sampleToNumber
                      sampleBodyParser "/users" None)). reflexivity.
    + reflexivity.
  - apply (proj2 (crud_default_action_types sampleParse sampleToNumber
                    sampleBodyParser "/users"
                    (Some {| actionTypes := Some []; afterGetList := None;
                             afterGetOne := None |}))).
    reflexivity.
Defined.

(** The counterexample to C1 as stated: with the empty list as
    [actionTypes], the router has no route at all. *)
Lemma crud_empty_list_registers_nothing :
  match crud sampleParse sampleToNumber sampleBodyParser (S := Table.t) "/users"
          (Some {| actionTypes := Some []; afterGetList := None; afterGetOne := None |})
  with
  | Normal router => routes router = []
  | Throw _ => False
  end.
Proof. reflexivity. Qed.

(** Inside the loop, the route of [GET_ONE] was pushed on the local router
    before [PATCH] was met; [crud] throws and that router goes with it. *)
Example registerAll_before_the_throw :
  let '(completion, router) :=
    registerAll sampleParse sampleToNumber (S := Table.t) "/users" identityHook identityHook
      ["GET_ONE"; "PATCH"; "HEAD"]%string [] in
  completion = Throw (Error "Unknown action type PATCH")
  /\ routes router = [(GET, "/users/:id"%string)].
Proof. split; reflexivity. Qed.

(** The witness of C3: a value of the enumeration, then two that are not. *)
Lemma crud_unknown_action_type_witness :
  (exists before a rest,
     ["GET_ONE"; "PATCH"; "HEAD"]%string = before ++ a :: rest
     /\ Forall (fun x => In x ActionType.values) before
     /\ ~ In a ActionType.values
     /\ crud sampleParse sampleToNumber sampleBodyParser (S := Table.t) "/users"
          (Some {| actionTypes := Some ["GET_ONE"; "PATCH"; "HEAD"]%string;
                   afterGetList := None; afterGetOne := None |})
        = Throw (Error ("Unknown action type " +:+ a)))
  /\ (forall router,
        crud sampleParse sampleToNumber sampleBodyParser (S := Table.t) "/users"
          (Some {| actionTypes := Some ["GET_ONE"; "PATCH"; "HEAD"]%string;
                   afterGetList := None; afterGetOne := None |})
        <> Normal router).
Proof.
  apply (crud_unknown_action_type sampleParse sampleToNumber sampleBodyParser "/users"
           {| actionTypes := Some ["GET_ONE"; "PATCH"; "HEAD"]%string;
              afterGetList := None; afterGetOne := None |}
           ["GET_ONE"; "PATCH"; "HEAD"]%string).
  - reflexivity.
  - exists "PATCH"%string. split.
    + cbn. tauto.
    + cbn. intros [E|[E|[E|[E|[E|[]]]]]]; discriminate E.
Defined.

(** What the caller of the witness of C3 gets: the error names [PATCH], the
    first unknown value, although [GET_ONE] came before it. *)
Example crud_throws_on_patch :
  crud sampleParse sampleToNumber sampleBodyParser (S := Table.t) "/users"
    (Some {| actionTypes := Some ["GET_ONE"; "PATCH"; "HEAD"]%string;
             afterGetList := None; afterGetOne := None |})
  = Throw (Error "Unknown action type PATCH").
Proof. reflexivity. Qed.

(** ** The handlers *)

Section HandlerFacts.
Context {S : Type} `{SequelizeModel S}.
Variable JSON_parse : string -> Completion JsValue.
Variable StringToNumber : string -> option Z.
Implicit Types (req : Request) (w : World S) (afterHook : Hook).

Local Abbreviation getList' := (getList JSON_parse StringToNumber).
Local Abbreviation parseOr' := (parseOr JSON_parse).

Ltac run_handler :=
  unfold getList, getOne, update, destroy, create,
    tryCatchNext, bind, eval, await, onRes, ret.

(** [getList], once its three parameters are read without an exception. *)
Lemma getList_run afterHook req w (parsed from to order where_ : JsValue) :
  parseOr' (range (query req)) (JArr [JNum 0; JNum 100]) = Normal parsed ->
  Js.destructure2 parsed = Normal (from, to) ->
  parseOr' (sort (query req)) (JArr [JStr "id"; JStr "ASC"]) = Normal order ->
  parseOr' (filter (query req)) (JObj []) = Normal where_ ->
  getList' afterHook req w
  = let options :=
      {| offset := from;
         limit := Js.add StringToNumber (Js.sub StringToNumber to from) (JNum 1);
         order := [order]; where_ := where_; raw := true |} in
    let called := calls w ++ [CallFindAndCountAll options] in
    match model_findAndCountAll options (db w) with
    | (Normal (count, rows), db') =>
        let res1 :=
          setHeader "Content-Range"
            (Js.ToString from +:+ "-"
             +:+ Js.ToString (Js.add StringToNumber from (JNum (Z.of_nat (length rows))))
             +:+ "/" +:+ Js.ToString (JNum count)) (res w) in
        match afterHook (JArr rows) with
        | Normal data => (NotCalled, {| res := json data res1; db := db'; calls := called |})
        | Throw e => (NextError e, {| res := res1; db := db'; calls := called |})
        end
    | (Throw e, db') => (NextError e, {| res := res w; db := db'; calls := called |})
    end.
Proof.
  intros Hrange Hpair Hsort Hfilter. run_handler.
  rewrite Hrange, Hpair, Hsort, Hfilter. cbn [res db calls].
  destruct (model_findAndCountAll _ (db w)) as [[[count rows]|e] db']; [|reflexivity].
  cbn [res db calls]. now destruct (afterHook (JArr rows)).
Qed.

(** C5. When [range] parses to a valid range, the array of the safe
    integers [from] and [to] with [0 <= from <= to] (and [sort] and
    [filter] are read without an exception), [getList] makes one call to
    the model, [findAndCountAll] with [offset] [from] and [limit]
    [to - from + 1]; when that call resolves with [count] and [rows]
    (safe integers too, as is [from + rows.length]), the response has
    [Content-Range] set to [from-(from + rows.length)/count]. *)
Theorem getList_range afterHook req w (text : string) (from to : Z)
    (order where_ : JsValue) :
  range (query req) = Some text ->
  truthy text = true ->
  JSON_parse text = Normal (JArr [JNum from; JNum to]) ->
  validRange from to ->
  parseOr' (sort (query req)) (JArr [JStr "id"; JStr "ASC"]) = Normal order ->
  parseOr' (filter (query req)) (JObj []) = Normal where_ ->
  let options :=
    {| offset := JNum from; limit := JNum (to - from + 1);
       order := [order]; where_ := where_; raw := true |} in
  calls (snd (getList' afterHook req w)) = calls w ++ [CallFindAndCountAll options]
  /\ (forall (count : Z) (rows : list JsValue) (db' : S),
        model_findAndCountAll options (db w) = (Normal (count, rows), db') ->
        safeInteger count ->
        safeInteger (from + Z.of_nat (length rows)) ->
        getHeader "Content-Range" (res (snd (getList' afterHook req w)))
        = Some (HStr (pretty from +:+ "-" +:+ pretty (from + Z.of_nat (length rows))
                      +:+ "/" +:+ pretty count))).
Proof.
  intros Hr Ht Hp Hvalid Hsort Hfilter options.
  assert (Hrange : parseOr' (range (query req)) (JArr [JNum 0; JNum 100])
                   = Normal (JArr [JNum from; JNum to])).
  { unfold parseOr. now rewrite Hr, Ht. }
  rewrite (getList_run afterHook req w _ (JNum from) (JNum to) order where_
             Hrange eq_refl Hsort Hfilter).
  change (Js.add StringToNumber (Js.sub StringToNumber (JNum to) (JNum from)) (JNum 1))
    with (JNum (to - from + 1)).
  fold options. cbv zeta. split.
  - destruct (model_findAndCountAll options (db w)) as [[[count rows]|e] db'];
      [|reflexivity].
    now destruct (afterHook (JArr rows)).
  - intros count rows db' Hcall Hcount Hlast. rewrite Hcall.
    destruct (afterHook (JArr rows)); cbn [snd res]; apply getHeader_setHeader.
Qed.

(** C8. A list request without [range] is answered as one whose [range]
    parses to [[0, 100]], one without [sort] as one whose [sort] parses to
    [["id", "ASC"]], one without [filter] as one whose [filter] parses to
    the empty object; with none of the three, the model is asked for the
    101 rows from offset 0, ordered by [id] ascending, with an empty
    [where]. *)
Theorem getList_defaults afterHook w (text : string) (r s f : option string)
    (id : string) (b : JsValue) :
  truthy text = true ->
  (JSON_parse text = Normal (JArr [JNum 0; JNum 100]) ->
   getList' afterHook
     {| query := {| range := None; sort := s; filter := f |}; params_id := id; body := b |} w
   = getList' afterHook
       {| query := {| range := Some text; sort := s; filter := f |};
          params_id := id; body := b |} w)
  /\ (JSON_parse text = Normal (JArr [JStr "id"; JStr "ASC"]) ->
      getList' afterHook
        {| query := {| range := r; sort := None; filter := f |}; params_id := id; body := b |} w
      = getList' afterHook
          {| query := {| range := r; sort := Some text; filter := f |};
             params_id := id; body := b |} w)
  /\ (JSON_parse text = Normal (JObj []) ->
      getList' afterHook
        {| query := {| range := r; sort := s; filter := None |}; params_id := id; body := b |} w
      = getList' afterHook
          {| query := {| range := r; sort := s; filter := Some text |};
             params_id := id; body := b |} w)
  /\ calls (snd (getList' afterHook
                   {| query := {| range := None; sort := None; filter := None |};
                      params_id := id; body := b |} w))
     = calls w
       ++ [CallFindAndCountAll
             {| offset := JNum 0; limit := JNum 101;
                order := [JArr [JStr "id"; JStr "ASC"]];
                where_ := JObj []; raw := true |}].
Proof.
  intros Ht. repeat split.
  - intros Hp. run_handler. cbn [query range sort filter parseOr].
    now rewrite Ht, Hp.
  - intros Hp. run_handler. cbn [query range sort filter parseOr].
    now rewrite Ht, Hp.
  - intros Hp. run_handler. cbn [query range sort filter parseOr].
    now rewrite Ht, Hp.
  - rewrite (getList_run afterHook
               {| query := {| range := None; sort := None; filter := None |};
                  params_id := id; body := b |}
               w (JArr [JNum 0; JNum 100]) (JNum 0) (JNum 100)
               (JArr [JStr "id"; JStr "ASC"]) (JObj []) eq_refl eq_refl eq_refl eq_refl).
    change (Js.add StringToNumber (Js.sub StringToNumber (JNum 100) (JNum 0)) (JNum 1))
      with (JNum 101).
    cbv zeta.
    destruct (model_findAndCountAll _ (db w)) as [[[count rows]|e] db']; [|reflexivity].
    now destruct (afterHook (JArr rows)).
Qed.

(** C6. When [findByPk] resolves to [null], [getOne] and [update] answer
    404 with [{error: "Record not found"}]; when it resolves to a record
    and the hook gives [data] for it, [getOne] answers [data] with the
    status the response came with, 200 unless something before the router
    changed it. *)
Theorem not_found_and_found afterHook req w :
  (forall db',
     model_findByPk (params_id req) true (db w) = (Normal None, db') ->
     fst (getOne afterHook req w) = NotCalled
     /\ statusCode (res (snd (getOne afterHook req w))) = 404
     /\ sent (res (snd (getOne afterHook req w)))
        = Some (JObj [("error", JStr "Record not found")]%string))
  /\ (forall db',
        model_findByPk (params_id req) false (db w) = (Normal None, db') ->
        fst (update req w) = NotCalled
        /\ statusCode (res (snd (update req w))) = 404
        /\ sent (res (snd (update req w)))
           = Some (JObj [("error", JStr "Record not found")]%string))
  /\ (forall db' (record data : JsValue),
        model_findByPk (params_id req) true (db w) = (Normal (Some record), db') ->
        afterHook record = Normal data ->
        statusCode (res w) = 200 ->
        fst (getOne afterHook req w) = NotCalled
        /\ statusCode (res (snd (getOne afterHook req w))) = 200
        /\ sent (res (snd (getOne afterHook req w))) = Some data).
Proof.
  split; [|split].
  - intros db' Hcall. run_handler. now rewrite Hcall.
  - intros db' Hcall. run_handler. now rewrite Hcall.
  - intros db' record data Hcall Hhook Hstatus. run_handler.
    rewrite Hcall, Hhook. cbn [fst snd res statusCode sent json]. easy.
Qed.

(** C7. [destroy] makes one call to the model, [destroy] with
    [where: {id}], and none before it to look the record up; whatever
    number of rows that call reports, zero included, the answer is
    [{id}] with the status the response came with, 200 unless something
    before the router changed it. *)
Theorem destroy_always_answers req w :
  calls (snd (destroy req w))
  = calls w ++ [CallDestroy (JObj [("id", JStr (params_id req))]%string)]
  /\ (forall (n : Z) (db' : S),
        model_destroy (JObj [("id", JStr (params_id req))]%string) (db w) = (Normal n, db') ->
        statusCode (res w) = 200 ->
        fst (destroy req w) = NotCalled
        /\ statusCode (res (snd (destroy req w))) = 200
        /\ sent (res (snd (destroy req w)))
           = Some (JObj [("id", JStr (params_id req))]%string)).
Proof.
  split.
  - run_handler.
    now destruct (model_destroy _ (db w)) as [[n|e] db'].
  - intros n db' Hcall Hstatus. run_handler. rewrite Hcall.
    cbn [fst snd res statusCode sent json]. easy.
Qed.

(** What [update] asks of the model when the record is there. *)
Lemma update_calls req w (record : JsValue) (db1 : S) :
  model_findByPk (params_id req) false (db w) = (Normal (Some record), db1) ->
  calls (snd (update req w))
  = calls w ++ [CallFindByPk (params_id req) false;
                CallUpdate (body req) (JObj [("id", JStr (params_id req))]%string) true].
Proof.
  intros Hcall. run_handler. rewrite Hcall. cbn [res db calls].
  destruct (model_update _ _ _ db1) as [[result|e] db2]; cbn [snd calls];
    now rewrite <- app_assoc.
Qed.

End HandlerFacts.

(** ** The reference table *)

(** With [id] as the primary key, [findByPk(id)] and [where: {id}] choose
    among the same rows. *)
Lemma byPk_is_byWhere (table : Table.t) (id : string) :
  Table.primaryKey table = "id"%string ->
  Table.byPk table id = Table.byWhere table [("id"%string, JStr id)].
Proof.
  intros Hpk. unfold Table.byPk, Table.byWhere. rewrite Hpk.
  apply List.filter_ext. intros row. unfold Table.satisfies. cbn.
  now rewrite andb_true_r.
Qed.

(** With another primary key, they need not. *)
Lemma byPk_is_not_byWhere (pk : string) :
  pk <> "id"%string ->
  Table.byPk (crossed pk) "1" <> Table.byWhere (crossed pk) [("id"%string, JStr "1")].
Proof.
  intros Hne. apply String.eqb_neq in Hne.
  unfold Table.byPk, Table.byWhere, Table.satisfies, Table.has, crossed. cbn.
  rewrite String.eqb_refl, Hne. cbn. intros Heq. discriminate Heq.
Qed.

(** C10. When the record is there, [update] asks the model for
    [findByPk(id)] and then for an update [where: {id: id}], a filter on
    the column named [id]. On a table, the two choose among the same rows
    when the primary key is the column [id]; for every other primary key
    there is a table on which they do not. *)
Theorem update_check_and_filter {S : Type} `{SequelizeModel S}
    (req : Request) (w : World S) :
  (forall (record : JsValue) (db1 : S),
     model_findByPk (params_id req) false (db w) = (Normal (Some record), db1) ->
     calls (snd (update req w))
     = calls w ++ [CallFindByPk (params_id req) false;
                   CallUpdate (body req) (JObj [("id", JStr (params_id req))]%string) true])
  /\ (forall (table : Table.t) (id : string),
        Table.primaryKey table = "id"%string ->
        Table.byPk table id = Table.byWhere table [("id"%string, JStr id)])
  /\ (forall pk : string,
        pk <> "id"%string ->
        exists (table : Table.t) (id : string),
          Table.primaryKey table = pk
          /\ Table.byPk table id <> Table.byWhere table [("id"%string, JStr id)]).
Proof.
  split; [|split].
  - intros record db1. apply update_calls.
  - apply byPk_is_byWhere.
  - intros pk Hne. exists (crossed pk), "1"%string. split; [reflexivity|].
    now apply byPk_is_not_byWhere.
Qed.

(** On [accounts], whose primary key is [uuid], a request to update [1]
    finds the row with [uuid] 1 and changes the row with [id] 1, which is
    another one. *)
Example update_changes_another_row :
  Table.byPk accounts "1" = [ [("uuid", "1"); ("id", "2"); ("name", "ada")] ]%string
  /\ Table.rows (db (snd (update (requestFor "1") (freshWorld accounts))))
     = [ [("uuid", "1"); ("id", "2"); ("name", "ada")];
         [("uuid", "2"); ("id", "1"); ("name", "zoe")] ]%string.
Proof. split; reflexivity. Qed.

(** ** Witnesses on the table [users] *)

(** The witness of C5: rows 1 to 2 of three. *)
Lemma getList_range_witness :
  calls (snd (getList sampleParse sampleToNumber identityHook pageRequest (freshWorld users)))
  = [CallFindAndCountAll
       {| offset := JNum 1; limit := JNum 2;
          order := [JArr [JStr "id"; JStr "ASC"]]; where_ := JObj []; raw := true |}]
  /\ getHeader "Content-Range"
       (res (snd (getList sampleParse sampleToNumber identityHook pageRequest
                    (freshWorld users))))
     = Some (HStr "1-3/3").
Proof.
  assert (Hvalid : validRange 1 2) by (unfold validRange, MAX_SAFE_INTEGER; lia).
  destruct (getList_range sampleParse sampleToNumber identityHook pageRequest
              (freshWorld users) "[1,2]" 1 2 (JArr [JStr "id"; JStr "ASC"]) (JObj [])
              eq_refl eq_refl eq_refl Hvalid eq_refl eq_refl) as [Hcalls Hheader].
  split.
  - exact Hcalls.
  - apply (Hheader 3
             [JObj [("id", JStr "2"); ("name", JStr "bob")];
              JObj [("id", JStr "3"); ("name", JStr "cy")]]%string
             users eq_refl).
    + unfold safeInteger, MAX_SAFE_INTEGER. lia.
    + unfold safeInteger, MAX_SAFE_INTEGER. cbn. lia.
Defined.

(** The witness of C8: the three texts of [sampleParse]. *)
Lemma getList_defaults_witness :
  getList sampleParse sampleToNumber identityHook (requestFor "") (freshWorld users)
  = getList sampleParse sampleToNumber identityHook
      {| query := {| range := Some "[0,100]"; sort := None; filter := None |};
         params_id := ""; body := JObj [("name", JStr "zoe")]%string |}
      (freshWorld users)
  /\ getList sampleParse sampleToNumber identityHook (requestFor "") (freshWorld users)
     = getList sampleParse sampleToNumber identityHook
         {| query := {| range := None; sort := Some sortText; filter := None |};
            params_id := ""; body := JObj [("name", JStr "zoe")]%string |}
         (freshWorld users)
  /\ getList sampleParse sampleToNumber identityHook (requestFor "") (freshWorld users)
     = getList sampleParse sampleToNumber identityHook
         {| query := {| range := None; sort := None; filter := Some "{}" |};
            params_id := ""; body := JObj [("name", JStr "zoe")]%string |}
         (freshWorld users).
Proof.
  pose proof (getList_defaults sampleParse sampleToNumber identityHook (freshWorld users))
    as Hdefaults.
  split; [|split].
  - apply (Hdefaults "[0,100]"%string None None None); reflexivity.
  - apply (Hdefaults sortText None None None); reflexivity.
  - apply (Hdefaults "{}"%string None None None); reflexivity.
Defined.

(** The witness of C6: no user 7, and user 2. *)
Lemma not_found_and_found_witness :
  statusCode (res (snd (getOne identityHook (requestFor "7") (freshWorld users)))) = 404
  /\ statusCode (res (snd (update (requestFor "7") (freshWorld users)))) = 404
  /\ statusCode (res (snd (getOne identityHook (requestFor "2") (freshWorld users)))) = 200
  /\ sent (res (snd (getOne identityHook (requestFor "2") (freshWorld users))))
     = Some (JObj [("id", JStr "2"); ("name", JStr "bob")]%string).
Proof.
  destruct (not_found_and_found identityHook (requestFor "7") (freshWorld users))
    as (Hone & Hupdate & _).
  destruct (not_found_and_found identityHook (requestFor "2") (freshWorld users))
    as (_ & _ & Hfound).
  destruct (Hone users eq_refl) as (_ & Hone404 & _).
  destruct (Hupdate users eq_refl) as (_ & Hupdate404 & _).
  destruct (Hfound users _ _ eq_refl eq_refl eq_refl) as (_ & H200 & Hsent).
  repeat split; assumption.
Defined.

(** The witness of C7: deleting user 7, who is not there, and user 2, who
    is. *)
Lemma destroy_always_answers_witness :
  (statusCode (res (snd (destroy (requestFor "7") (freshWorld users)))) = 200
   /\ sent (res (snd (destroy (requestFor "7") (freshWorld users))))
      = Some (JObj [("id", JStr "7")]%string))
  /\ (statusCode (res (snd (destroy (requestFor "2") (freshWorld users)))) = 200
      /\ sent (res (snd (destroy (requestFor "2") (freshWorld users))))
         = Some (JObj [("id", JStr "2")]%string)).
Proof.
  destruct (destroy_always_answers (requestFor "7") (freshWorld users)) as [_ Habsent].
  destruct (destroy_always_answers (requestFor "2") (freshWorld users)) as [_ Hpresent].
  split.
  - exact (proj2 (Habsent 0 users eq_refl eq_refl)).
  - exact (proj2 (Hpresent 1 _ eq_refl eq_refl)).
Defined.

(** The witness of C10: user 2 on [users], and the primary key [uuid]. *)
Lemma update_check_and_filter_witness :
  calls (snd (update (requestFor "2") (freshWorld users)))
  = [CallFindByPk "2" false;
     CallUpdate (JObj [("name", JStr "zoe")]%string) (JObj [("id", JStr "2")]%string) true]
  /\ Table.byPk users "2" = Table.byWhere users [("id"%string, JStr "2")]
  /\ (exists (table : Table.t) (id : string),
        Table.primaryKey table = "uuid"%string
        /\ Table.byPk table id <> Table.byWhere table [("id"%string, JStr id)]).
Proof.
  destruct (update_check_and_filter (requestFor "2") (freshWorld users))
    as (Hcalls & Hsame & Hother).
  split; [|split].
  - exact (Hcalls _ _ eq_refl).
  - exact (Hsame users "2"%string eq_refl).
  - apply Hother. discriminate.
Defined.

(** * Further properties of the code *)

(** ** Header normalization *)

Section AppendHeadersMore.
Context {S : Type}.
Implicit Types (req : Request) (w : World S).
Import JsString.

(** X1. [appendHeaders] changes nothing but the two headers it names: the
    status, the body, the store, the calls made to the model and every
    header under another name are as they were. *)
Theorem appendHeaders_frame req w :
  statusCode (res (snd (appendHeaders req w))) = statusCode (res w)
  /\ sent (res (snd (appendHeaders req w))) = sent (res w)
  /\ db (snd (appendHeaders req w)) = db w
  /\ calls (snd (appendHeaders req w)) = calls w
  /\ (forall name : string,
        toLowerCase name <> toLowerCase exposeHeaders ->
        toLowerCase name <> toLowerCase allowHeaders ->
        getHeader name (res (snd (appendHeaders req w))) = getHeader name (res w)).
Proof.
  unfold appendHeaders. cbn [snd res db calls]. rewrite appendHeadersLoop_cors.
  destruct (orEmpty (getHeader exposeHeaders (res w))) as [n|a|l];
    [repeat split; reflexivity| |repeat split; reflexivity].
  cbv zeta.
  destruct (orEmpty (getHeader allowHeaders (res w))) as [n|b|l];
    repeat split; try reflexivity; intros name Hexpose Hallow;
    rewrite ?getHeader_setHeader_ne; auto.
Qed.

(** X2. Once [appendHeaders] has run on a response whose
    [Access-Control-Expose-Headers] is a string or falsy, that header
    lists [Content-Range]; when the same holds of
    [Access-Control-Allow-Headers], so does that one. *)
Theorem appendHeaders_lists_content_range req w :
  notString (getHeader exposeHeaders (res w)) = false ->
  (exists value : string,
     getHeader exposeHeaders (res (snd (appendHeaders req w))) = Some (HStr value)
     /\ In "Content-Range"%string (entries value))
  /\ (notString (getHeader allowHeaders (res w)) = false ->
      exists value : string,
        getHeader allowHeaders (res (snd (appendHeaders req w))) = Some (HStr value)
        /\ In "Content-Range"%string (entries value)).
Proof.
  intros Hexpose.
  assert (Hlisted : forall raw, In "Content-Range"%string (entries (normalized raw))).
  { intros raw. rewrite entries_normalized. apply withContentRange_In. now right. }
  destruct (appendHeaders_headers req w) as [He Ha].
  rewrite Hexpose in Ha. rewrite He, Ha. unfold notString, visited in *.
  destruct (orEmpty (getHeader exposeHeaders (res w))) as [n|a|l]; try discriminate.
  split.
  - exists (normalized a). split; [reflexivity|apply Hlisted].
  - intros Hallow.
    destruct (orEmpty (getHeader allowHeaders (res w))) as [n|b|l]; try discriminate.
    exists (normalized b). split; [reflexivity|apply Hlisted].
Qed.

(** X3. The value written for a header holds no entry that was not in the
    old value, [Content-Range] apart, and every entry of it is free of
    commas and of white space at its ends. *)
Theorem normalized_adds_only_content_range (rawValue e : string) :
  In e (entries (normalized rawValue)) ->
  (In e (entries rawValue) \/ e = "Content-Range"%string)
  /\ trim e = e
  /\ contains "," e = false.
Proof.
  rewrite entries_normalized. intros He.
  apply withContentRange_In in He as [He| ->].
  - destruct (entries_trimmed _ _ He) as [Ht Hc]. repeat split; auto.
  - repeat split; auto.
Qed.

(** X4. The value written for a header is in the form the code writes:
    reading its entries as line 150 does and joining them as line 154 does
    gives the value back. *)
Theorem normalized_canonical (rawValue : string) :
  join ", " (entries (normalized rawValue)) = normalized rawValue.
Proof. now rewrite entries_normalized. Qed.

(** X5. Running [appendHeaders] a second time changes nothing, whatever
    the two headers held: strings, numbers, arrays or nothing. *)
Theorem appendHeaders_twice req w :
  appendHeaders req (snd (appendHeaders req w)) = appendHeaders req w.
Proof.
  unfold appendHeaders. cbn [snd res db calls].
  now rewrite appendHeadersLoop_idem.
Qed.

End AppendHeadersMore.

(** The witness of X1: the header [X-Powered-By] of [accepted]. *)
Lemma appendHeaders_frame_witness :
  getHeader "X-Powered-By" (res (snd (appendHeaders (requestFor "1") (worldOf accepted))))
  = Some (HStr "Express")
  /\ statusCode (res (snd (appendHeaders (requestFor "1") (worldOf accepted)))) = 202.
Proof.
  destruct (appendHeaders_frame (requestFor "1") (worldOf accepted))
    as (Hstatus & _ & _ & _ & Hother).
  split; [|exact Hstatus].
  change (Some (HStr "Express")) with (getHeader "X-Powered-By" (res (worldOf accepted))).
  apply Hother; discriminate.
Defined.

(** The witness of X2: both headers of [bothStrings]. *)
Lemma appendHeaders_lists_content_range_witness :
  (exists value : string,
     getHeader exposeHeaders
       (res (snd (appendHeaders (requestFor "1") (worldOf bothStrings)))) = Some (HStr value)
     /\ In "Content-Range"%string (entries value))
  /\ (exists value : string,
        getHeader allowHeaders
          (res (snd (appendHeaders (requestFor "1") (worldOf bothStrings)))) = Some (HStr value)
        /\ In "Content-Range"%string (entries value)).
Proof.
  destruct (appendHeaders_lists_content_range (requestFor "1") (worldOf bothStrings) eq_refl)
    as [Hexpose Hallow].
  split; [exact Hexpose|exact (Hallow eq_refl)].
Defined.

(** The witness of X3: the entry [ETag] of a value with stray spaces. *)
Lemma normalized_adds_only_content_range_witness :
  (In "ETag"%string (entries "X-Total-Count ,ETag") \/ "ETag"%string = "Content-Range"%string)
  /\ JsString.trim "ETag" = "ETag"%string
  /\ JsString.contains "," "ETag" = false.
Proof.
  apply (normalized_adds_only_content_range "X-Total-Count ,ETag" "ETag").
  vm_compute. tauto.
Defined.

(** ** The route-set generator *)

Section CrudMore.
Context {S : Type} `{SequelizeModel S}.
Variable JSON_parse : string -> Completion JsValue.
Variable StringToNumber : string -> option Z.
Variable bodyParser_json : RequestHandler S.

(** One of the five [case]s pushes one route, with the method and path of
    its action type. *)
Lemma register_route resource hookList hookOne (a : string) (router : Router S) :
  In a ActionType.values ->
  exists handler,
    register JSON_parse StringToNumber resource hookList hookOne a router
    = (Normal tt,
       router ++ [Route (fst (routeFor resource a)) (snd (routeFor resource a)) handler]).
Proof.
  cbn. intros [<-|[<-|[<-|[<-|[<-|[]]]]]]; eexists; reflexivity.
Qed.

Lemma registerAll_routes resource hookList hookOne (l : list string) :
  Forall (fun a => In a ActionType.values) l ->
  forall router,
  exists added,
    registerAll JSON_parse StringToNumber resource hookList hookOne l router
    = (Normal tt, router ++ added)
    /\ routes added = map (routeFor resource) l
    /\ length added = length l.
Proof.
  induction 1 as [|a l Ha Hl IH]; intros router.
  - exists []. cbn. now rewrite app_nil_r.
  - destruct (register_route resource hookList hookOne a router Ha) as [handler Hr].
    destruct (IH (router ++ [Route (fst (routeFor resource a))
                                   (snd (routeFor resource a)) handler]))
      as (added & Hrun & Hroutes & Hlen).
    exists (Route (fst (routeFor resource a)) (snd (routeFor resource a)) handler :: added).
    cbn [registerAll]. rewrite Hr, Hrun. repeat split.
    + now rewrite <- app_assoc.
    + unfold routes in *. cbn. rewrite Hroutes. now destruct (routeFor resource a).
    + cbn. now rewrite Hlen.
Qed.

(** X6. When every value of [actionTypes] is one of the five, [crud]
    returns a router that holds the body parser, then [appendHeaders], then
    one route for each value of the list, in the order of the list: a value
    listed twice is registered twice, and no route is added for a value
    that is not listed. *)
Theorem crud_registers_in_order (resource : string) (o : Options) (l : list string) :
  actionTypes o = Some l ->
  Forall (fun a => In a ActionType.values) l ->
  exists added,
    crud JSON_parse StringToNumber bodyParser_json resource (Some o)
    = Normal ([Use bodyParser_json; Use appendHeaders] ++ added)
    /\ routes added = map (routeFor resource) l
    /\ length added = length l.
Proof.
  intros Hl Hvalid.
  assert (Hlist : optionOr (Some o) actionTypes ActionType.values = l).
  { unfold optionOr. now rewrite Hl. }
  unfold crud. rewrite Hlist.
  destruct (registerAll_routes resource
              (optionOr (Some o) afterGetList (fun data => Normal data))
              (optionOr (Some o) afterGetOne (fun data => Normal data))
              l Hvalid ([] ++ [Use bodyParser_json] ++ [Use appendHeaders]))
    as (added & Hrun & Hroutes & Hlen).
  exists added. cbn [app] in Hrun |- *. now rewrite Hrun.
Qed.

End CrudMore.

(** The witness of X6: [DELETE], then [GET_ONE] twice. *)
Lemma crud_registers_in_order_witness :
  exists added,
    crud sampleParse sampleToNumber sampleBodyParser (S := Table.t) "/users"
      (Some {| actionTypes := Some ["DELETE"; "GET_ONE"; "GET_ONE"]%string;
               afterGetList := None; afterGetOne := None |})
    = Normal ([Use sampleBodyParser; Use appendHeaders] ++ added)
    /\ routes added
       = map (routeFor "/users") ["DELETE"; "GET_ONE"; "GET_ONE"]%string
    /\ length added = 3%nat.
Proof.
  apply (crud_registers_in_order sampleParse sampleToNumber sampleBodyParser "/users"
           {| actionTypes := Some ["DELETE"; "GET_ONE"; "GET_ONE"]%string;
              afterGetList := None; afterGetOne := None |}
           ["DELETE"; "GET_ONE"; "GET_ONE"]%string).
  - reflexivity.
  - repeat constructor; cbn; tauto.
Defined.

(** ** The handlers *)

Section HandlerMore.
Context {S : Type} `{SequelizeModel S}.
Variable JSON_parse : string -> Completion JsValue.
Variable StringToNumber : string -> option Z.
Implicit Types (req : Request) (w : World S) (afterHook : Hook).

Local Abbreviation getList' := (getList JSON_parse StringToNumber).
Local Abbreviation parseOr' := (parseOr JSON_parse).

Ltac step_handler :=
  unfold getList, getOne, update, destroy, create,
    tryCatchNext, bind, eval, await, onRes.

(** X7. [create] makes one call to the model, [create] with the body of
    the request; when it resolves, the answer is the created record with
    status 201, whatever status the response came with. *)
Theorem create_answers req w (record : JsValue) (db' : S) :
  model_create (body req) true (db w) = (Normal record, db') ->
  fst (create req w) = NotCalled
  /\ statusCode (res (snd (create req w))) = 201
  /\ sent (res (snd (create req w))) = Some record
  /\ db (snd (create req w)) = db'
  /\ calls (snd (create req w)) = calls w ++ [CallCreate (body req) true].
Proof.
  intros Hcall. step_handler. rewrite Hcall. repeat split.
Qed.

(** X8. When the model rejects a call, the handler that made it passes the
    reason to [next] and leaves the response as it was: no status, no
    header and no body is written. This holds for the lookup of [getOne]
    and of [update], for the write of [update], and for [create],
    [destroy] and [getList]. *)
Theorem model_rejection_goes_to_next afterHook req w (e : Exn) (db' : S) :
  (model_findByPk (params_id req) true (db w) = (Throw e, db') ->
   fst (getOne afterHook req w) = NextError e
   /\ res (snd (getOne afterHook req w)) = res w)
  /\ (model_findByPk (params_id req) false (db w) = (Throw e, db') ->
      fst (update req w) = NextError e /\ res (snd (update req w)) = res w)
  /\ (forall (record : JsValue) (db1 : S),
        model_findByPk (params_id req) false (db w) = (Normal (Some record), db1) ->
        model_update (body req) (JObj [("id", JStr (params_id req))]%string) true db1
        = (Throw e, db') ->
        fst (update req w) = NextError e /\ res (snd (update req w)) = res w)
  /\ (model_create (body req) true (db w) = (Throw e, db') ->
      fst (create req w) = NextError e /\ res (snd (create req w)) = res w)
  /\ (model_destroy (JObj [("id", JStr (params_id req))]%string) (db w) = (Throw e, db') ->
      fst (destroy req w) = NextError e /\ res (snd (destroy req w)) = res w)
  /\ (forall parsed from to order where_ : JsValue,
        parseOr' (range (query req)) (JArr [JNum 0; JNum 100]) = Normal parsed ->
        Js.destructure2 parsed = Normal (from, to) ->
        parseOr' (sort (query req)) (JArr [JStr "id"; JStr "ASC"]) = Normal order ->
        parseOr' (filter (query req)) (JObj []) = Normal where_ ->
        model_findAndCountAll
          {| offset := from;
             limit := Js.add StringToNumber (Js.sub StringToNumber to from) (JNum 1);
             order := [order]; where_ := where_; raw := true |} (db w)
        = (Throw e, db') ->
        fst (getList' afterHook req w) = NextError e
        /\ res (snd (getList' afterHook req w)) = res w).
Proof.
  repeat apply conj.
  - intros Hcall. step_handler. now rewrite Hcall.
  - intros Hcall. step_handler. now rewrite Hcall.
  - intros record db1 Hfind Hcall. step_handler. rewrite Hfind. cbn [res db calls].
    now rewrite Hcall.
  - intros Hcall. step_handler. now rewrite Hcall.
  - intros Hcall. step_handler. now rewrite Hcall.
  - intros parsed from to order where_ Hrange Hpair Hsort Hfilter Hcall.
    rewrite (getList_run JSON_parse StringToNumber afterHook req w
               parsed from to order where_ Hrange Hpair Hsort Hfilter).
    cbv zeta. now rewrite Hcall.
Qed.

(** X9. When [JSON.parse] throws on [range], on [sort] or on [filter],
    [getList] passes the exception to [next] and nothing else happens: the
    model is not called and the response is as it was. *)
Theorem getList_parse_error afterHook req w (text : string) (e : Exn) :
  truthy text = true ->
  JSON_parse text = Throw e ->
  (range (query req) = Some text -> getList' afterHook req w = (NextError e, w))
  /\ (forall (parsed : JsValue) (pair : JsValue * JsValue),
        parseOr' (range (query req)) (JArr [JNum 0; JNum 100]) = Normal parsed ->
        Js.destructure2 parsed = Normal pair ->
        sort (query req) = Some text ->
        getList' afterHook req w = (NextError e, w))
  /\ (forall (parsed order : JsValue) (pair : JsValue * JsValue),
        parseOr' (range (query req)) (JArr [JNum 0; JNum 100]) = Normal parsed ->
        Js.destructure2 parsed = Normal pair ->
        parseOr' (sort (query req)) (JArr [JStr "id"; JStr "ASC"]) = Normal order ->
        filter (query req) = Some text ->
        getList' afterHook req w = (NextError e, w)).
Proof.
  intros Ht He. destruct w as [response store log]. repeat apply conj.
  - intros Hr. step_handler. unfold parseOr at 1. now rewrite Hr, Ht, He.
  - intros parsed [from to] Hrange Hpair Hs. step_handler.
    rewrite Hrange, Hpair. unfold parseOr at 1. now rewrite Hs, Ht, He.
  - intros parsed order [from to] Hrange Hpair Hsort Hf. step_handler.
    rewrite Hrange, Hpair, Hsort. unfold parseOr at 1. now rewrite Hf, Ht, He.
Qed.

(** X10. When [range] parses to something that cannot be destructured (a
    number, a boolean, [null] or an object), [getList] passes the
    [TypeError] to [next]: the model is not called and the response is as
    it was. *)
Theorem getList_range_not_iterable afterHook req w (text : string) (v : JsValue) :
  range (query req) = Some text ->
  truthy text = true ->
  JSON_parse text = Normal v ->
  match v with
  | JArr _ | JStr _ => False
  | _ => True
  end ->
  getList' afterHook req w = (NextError TypeError_notIterable, w).
Proof.
  intros Hr Ht Hp Hv. destruct w as [response store log]. step_handler.
  unfold parseOr at 1. rewrite Hr, Ht, Hp.
  now destruct v.
Qed.

(** X11. When [range] parses to an array of fewer than two items, [to] is
    [undefined]: the model is still called, with the first item (or
    [undefined]) as [offset] and [NaN] as [limit]. *)
Theorem getList_short_range afterHook req w (text : string) (l : list JsValue)
    (order where_ : JsValue) :
  range (query req) = Some text ->
  truthy text = true ->
  JSON_parse text = Normal (JArr l) ->
  (length l < 2)%nat ->
  parseOr' (sort (query req)) (JArr [JStr "id"; JStr "ASC"]) = Normal order ->
  parseOr' (filter (query req)) (JObj []) = Normal where_ ->
  calls (snd (getList' afterHook req w))
  = calls w
    ++ [CallFindAndCountAll
          {| offset := nth 0 l JUndefined; limit := JNaN;
             order := [order]; where_ := where_; raw := true |}].
Proof.
  intros Hr Ht Hp Hlen Hsort Hfilter.
  assert (Hrange : parseOr' (range (query req)) (JArr [JNum 0; JNum 100])
                   = Normal (JArr l)).
  { unfold parseOr. now rewrite Hr, Ht. }
  assert (Hto : nth 1 l JUndefined = JUndefined).
  { destruct l as [|x [|y l']]; try reflexivity. cbn in Hlen. lia. }
  rewrite (getList_run JSON_parse StringToNumber afterHook req w _
             (nth 0 l JUndefined) (nth 1 l JUndefined) order where_
             Hrange eq_refl Hsort Hfilter).
  rewrite Hto.
  change (Js.add StringToNumber (Js.sub StringToNumber JUndefined (nth 0 l JUndefined))
            (JNum 1)) with JNaN.
  cbv zeta.
  destruct (model_findAndCountAll _ (db w)) as [[[count rows]|e] db']; [|reflexivity].
  now destruct (afterHook (JArr rows)).
Qed.

(** X12. When [range] is a valid range (given, or [[0, 100]] by default)
    and the hook throws after the model has answered, [getList] passes the
    exception to [next] and sends no body, but [Content-Range] is already
    set on the response. *)
Theorem getList_hook_failure afterHook req w (from to : Z) (order where_ : JsValue)
    (count : Z) (rows : list JsValue) (db' : S) (e : Exn) :
  parseOr' (range (query req)) (JArr [JNum 0; JNum 100])
  = Normal (JArr [JNum from; JNum to]) ->
  validRange from to ->
  parseOr' (sort (query req)) (JArr [JStr "id"; JStr "ASC"]) = Normal order ->
  parseOr' (filter (query req)) (JObj []) = Normal where_ ->
  model_findAndCountAll
    {| offset := JNum from; limit := JNum (to - from + 1);
       order := [order]; where_ := where_; raw := true |} (db w)
  = (Normal (count, rows), db') ->
  safeInteger count ->
  safeInteger (from + Z.of_nat (length rows)) ->
  afterHook (JArr rows) = Throw e ->
  fst (getList' afterHook req w) = NextError e
  /\ sent (res (snd (getList' afterHook req w))) = sent (res w)
  /\ getHeader "Content-Range" (res (snd (getList' afterHook req w)))
     = Some (HStr (pretty from +:+ "-" +:+ pretty (from + Z.of_nat (length rows))
                   +:+ "/" +:+ pretty count)).
Proof.
  intros Hrange Hvalid Hsort Hfilter Hcall Hcount Hlast Hhook.
  rewrite (getList_run JSON_parse StringToNumber afterHook req w
             _ (JNum from) (JNum to) order where_ Hrange eq_refl Hsort Hfilter).
  change (Js.add StringToNumber (Js.sub StringToNumber (JNum to) (JNum from)) (JNum 1))
    with (JNum (to - from + 1)).
  cbv zeta. rewrite Hcall, Hhook. cbn [fst snd res].
  repeat split. apply getHeader_setHeader.
Qed.

(** X13. When [range] is a valid range (given, or [[0, 100]] by default)
    and the model and the hook both answer, [getList] sends what the hook
    returned and does not call [next]; it keeps the status of the response
    and the store as the model left it. *)
Theorem getList_answer afterHook req w (from to : Z) (order where_ data : JsValue)
    (count : Z) (rows : list JsValue) (db' : S) :
  parseOr' (range (query req)) (JArr [JNum 0; JNum 100])
  = Normal (JArr [JNum from; JNum to]) ->
  validRange from to ->
  parseOr' (sort (query req)) (JArr [JStr "id"; JStr "ASC"]) = Normal order ->
  parseOr' (filter (query req)) (JObj []) = Normal where_ ->
  model_findAndCountAll
    {| offset := JNum from; limit := JNum (to - from + 1);
       order := [order]; where_ := where_; raw := true |} (db w)
  = (Normal (count, rows), db') ->
  safeInteger count ->
  safeInteger (from + Z.of_nat (length rows)) ->
  afterHook (JArr rows) = Normal data ->
  fst (getList' afterHook req w) = NotCalled
  /\ sent (res (snd (getList' afterHook req w))) = Some data
  /\ statusCode (res (snd (getList' afterHook req w))) = statusCode (res w)
  /\ db (snd (getList' afterHook req w)) = db'.
Proof.
  intros Hrange Hvalid Hsort Hfilter Hcall Hcount Hlast Hhook.
  rewrite (getList_run JSON_parse StringToNumber afterHook req w
             _ (JNum from) (JNum to) order where_ Hrange eq_refl Hsort Hfilter).
  change (Js.add StringToNumber (Js.sub StringToNumber (JNum to) (JNum from)) (JNum 1))
    with (JNum (to - from + 1)).
  cbv zeta. rewrite Hcall, Hhook. cbn [fst snd res db].
  repeat split.
Qed.

(** X14. When the record is there and the model resolves the update,
    [update] sends what [model.update] resolved to (not the record), keeps
    the status of the response and leaves the store as the update left
    it. *)
Theorem update_answers_raw_result req w (record result : JsValue) (db1 db2 : S) :
  model_findByPk (params_id req) false (db w) = (Normal (Some record), db1) ->
  model_update (body req) (JObj [("id", JStr (params_id req))]%string) true db1
  = (Normal result, db2) ->
  fst (update req w) = NotCalled
  /\ sent (res (snd (update req w))) = Some result
  /\ statusCode (res (snd (update req w))) = statusCode (res w)
  /\ db (snd (update req w)) = db2.
Proof.
  intros Hfind Hcall. step_handler. rewrite Hfind. cbn [res db calls].
  rewrite Hcall. repeat split.
Qed.

(** X15. When the lookup of [update] resolves to [null], the model is not
    asked to update anything: the lookup is the only call, and the store
    is as the lookup left it. *)
Theorem update_not_found_makes_no_write req w (db' : S) :
  model_findByPk (params_id req) false (db w) = (Normal None, db') ->
  calls (snd (update req w)) = calls w ++ [CallFindByPk (params_id req) false]
  /\ db (snd (update req w)) = db'.
Proof.
  intros Hfind. step_handler. rewrite Hfind. split; reflexivity.
Qed.

(** X16. A parameter given as the empty string ([?range=], [?sort=] or
    [?filter=]) is falsy: [JSON.parse] is not called on it and [getList]
    runs as if the parameter were not there, whatever the other two
    parameters are. *)
Theorem empty_parameters_are_absent afterHook w (r s f : option string)
    (id : string) (b : JsValue) :
  getList' afterHook
    {| query := {| range := Some EmptyString; sort := s; filter := f |};
       params_id := id; body := b |} w
  = getList' afterHook
      {| query := {| range := None; sort := s; filter := f |};
         params_id := id; body := b |} w
  /\ getList' afterHook
       {| query := {| range := r; sort := Some EmptyString; filter := f |};
          params_id := id; body := b |} w
     = getList' afterHook
         {| query := {| range := r; sort := None; filter := f |};
            params_id := id; body := b |} w
  /\ getList' afterHook
       {| query := {| range := r; sort := s; filter := Some EmptyString |};
          params_id := id; body := b |} w
     = getList' afterHook
         {| query := {| range := r; sort := s; filter := None |};
            params_id := id; body := b |} w.
Proof. split; [|split]; reflexivity. Qed.

(** X17. No handler sets the status to 200. [getList] and [destroy] never
    change the status of the response; [getOne] and [update] change it to
    404 or not at all; [create] changes it to 201 or not at all. *)
Theorem status_is_kept afterHook req w :
  statusCode (res (snd (getList' afterHook req w))) = statusCode (res w)
  /\ statusCode (res (snd (destroy req w))) = statusCode (res w)
  /\ (statusCode (res (snd (getOne afterHook req w))) = statusCode (res w)
      \/ statusCode (res (snd (getOne afterHook req w))) = 404)
  /\ (statusCode (res (snd (update req w))) = statusCode (res w)
      \/ statusCode (res (snd (update req w))) = 404)
  /\ (statusCode (res (snd (create req w))) = statusCode (res w)
      \/ statusCode (res (snd (create req w))) = 201).
Proof.
  repeat apply conj.
  - step_handler.
    destruct (parseOr' (range (query req)) _) as [parsed|e]; [|reflexivity].
    destruct (Js.destructure2 parsed) as [[from to]|e]; [|reflexivity].
    destruct (parseOr' (sort (query req)) _) as [order|e]; [|reflexivity].
    destruct (parseOr' (filter (query req)) _) as [where_|e]; [|reflexivity].
    cbn [res db calls].
    destruct (model_findAndCountAll _ (db w)) as [[[count rows]|e] db']; [|reflexivity].
    cbn [res db calls]. now destruct (afterHook (JArr rows)).
  - step_handler. now destruct (model_destroy _ (db w)) as [[n|e] db'].
  - step_handler.
    destruct (model_findByPk _ _ (db w)) as [[[record|]|e] db']; cbn [res db calls].
    + destruct (afterHook record); now left.
    + now right.
    + now left.
  - step_handler.
    destruct (model_findByPk _ _ (db w)) as [[[record|]|e] db']; cbn [res db calls].
    + destruct (model_update _ _ _ db') as [[result|e] db2]; now left.
    + now right.
    + now left.
  - step_handler.
    destruct (model_create _ _ (db w)) as [[record|e] db']; [now right|now left].
Qed.

(** X18. The second number of [Content-Range] is one past the last row:
    when the model returns a full page of [to - from + 1] rows for a valid
    range from [from] to [to], the header is [from-(to + 1)/count]. *)
Theorem content_range_end_is_exclusive afterHook req w (text : string) (from to : Z)
    (order where_ : JsValue) (count : Z) (rows : list JsValue) (db' : S) :
  range (query req) = Some text ->
  truthy text = true ->
  JSON_parse text = Normal (JArr [JNum from; JNum to]) ->
  validRange from to ->
  parseOr' (sort (query req)) (JArr [JStr "id"; JStr "ASC"]) = Normal order ->
  parseOr' (filter (query req)) (JObj []) = Normal where_ ->
  model_findAndCountAll
    {| offset := JNum from; limit := JNum (to - from + 1);
       order := [order]; where_ := where_; raw := true |} (db w)
  = (Normal (count, rows), db') ->
  safeInteger count ->
  Z.of_nat (length rows) = to - from + 1 ->
  getHeader "Content-Range" (res (snd (getList' afterHook req w)))
  = Some (HStr (pretty from +:+ "-" +:+ pretty (to + 1) +:+ "/" +:+ pretty count)).
Proof.
  intros Hr Ht Hp Hvalid Hsort Hfilter Hcall Hcount Hfull.
  assert (Hrange : parseOr' (range (query req)) (JArr [JNum 0; JNum 100])
                   = Normal (JArr [JNum from; JNum to])).
  { unfold parseOr. now rewrite Hr, Ht. }
  rewrite (getList_run JSON_parse StringToNumber afterHook req w _
             (JNum from) (JNum to) order where_ Hrange eq_refl Hsort Hfilter).
  change (Js.add StringToNumber (Js.sub StringToNumber (JNum to) (JNum from)) (JNum 1))
    with (JNum (to - from + 1)).
  cbv zeta. rewrite Hcall.
  change (Js.add StringToNumber (JNum from) (JNum (Z.of_nat (length rows))))
    with (JNum (from + Z.of_nat (length rows))).
  replace (from + Z.of_nat (length rows)) with (to + 1) by lia.
  destruct (afterHook (JArr rows)); cbn [snd res]; apply getHeader_setHeader.
Qed.

End HandlerMore.

(** ** Witnesses on [users] and on a database that cannot be reached *)

(** The witness of X7: a fourth user. *)
Lemma create_answers_witness :
  statusCode
    (res (snd (create {| query := emptyQuery; params_id := "";
                         body := JObj [("id", JStr "4"); ("name", JStr "dee")]%string |}
                 (freshWorld users)))) = 201
  /\ sent
       (res (snd (create {| query := emptyQuery; params_id := "";
                            body := JObj [("id", JStr "4"); ("name", JStr "dee")]%string |}
                    (freshWorld users))))
     = Some (JObj [("id", JStr "4"); ("name", JStr "dee")]%string).
Proof.
  pose proof (create_answers
                {| query := emptyQuery; params_id := "";
                   body := JObj [("id", JStr "4"); ("name", JStr "dee")]%string |}
                (freshWorld users)) as Hcreate.
  destruct (Hcreate
              (JObj [("id", JStr "4"); ("name", JStr "dee")]%string)
              (snd (Table.create (JObj [("id", JStr "4"); ("name", JStr "dee")]%string)
                      true users))
              eq_refl) as (_ & Hstatus & Hsent & _).
  split; [exact Hstatus|exact Hsent].
Defined.

(** The witness of X8: every handler on the database that cannot be
    reached, and an update of user 2 with a body that is not an object. *)
Lemma model_rejection_goes_to_next_witness :
  (fst (getOne identityHook (requestFor "1") (freshWorld tt))
   = NextError (Raised (JStr "SequelizeConnectionRefusedError"))
   /\ fst (update (requestFor "1") (freshWorld tt))
      = NextError (Raised (JStr "SequelizeConnectionRefusedError"))
   /\ fst (create (requestFor "1") (freshWorld tt))
      = NextError (Raised (JStr "SequelizeConnectionRefusedError"))
   /\ fst (destroy (requestFor "1") (freshWorld tt))
      = NextError (Raised (JStr "SequelizeConnectionRefusedError"))
   /\ fst (getList sampleParse sampleToNumber identityHook (requestFor "1") (freshWorld tt))
      = NextError (Raised (JStr "SequelizeConnectionRefusedError")))
  /\ (fst (update {| query := emptyQuery; params_id := "2"; body := JNull |}
             (freshWorld users))
      = NextError (Raised (JStr "SequelizeDatabaseError"))
      /\ res (snd (update {| query := emptyQuery; params_id := "2"; body := JNull |}
                     (freshWorld users)))
         = freshResponse).
Proof.
  split.
  - destruct (model_rejection_goes_to_next sampleParse sampleToNumber identityHook
                (requestFor "1") (freshWorld tt)
                (Raised (JStr "SequelizeConnectionRefusedError")) tt)
      as (Hone & Hupdate & _ & Hcreate & Hdestroy & Hlist).
    exact (conj (proj1 (Hone eq_refl))
             (conj (proj1 (Hupdate eq_refl))
                (conj (proj1 (Hcreate eq_refl))
                   (conj (proj1 (Hdestroy eq_refl))
                      (proj1 (Hlist (JArr [JNum 0; JNum 100]) (JNum 0) (JNum 100)
                                (JArr [JStr "id"; JStr "ASC"]) (JObj [])
                                eq_refl eq_refl eq_refl eq_refl eq_refl)))))).
  - destruct (model_rejection_goes_to_next sampleParse sampleToNumber identityHook
                {| query := emptyQuery; params_id := "2"; body := JNull |}
                (freshWorld users) (Raised (JStr "SequelizeDatabaseError")) users)
      as (_ & _ & Hwrite & _).
    exact (Hwrite (JObj [("id", JStr "2"); ("name", JStr "bob")]%string) users
             eq_refl eq_refl).
Defined.

(** The witness of X9: a text that is no JSON, as each of the three
    parameters. *)
Lemma getList_parse_error_witness :
  getList sampleParse sampleToNumber identityHook
    (listRequest (Some "oops") None None) (freshWorld users)
  = (NextError (Raised (JStr "SyntaxError")), freshWorld users)
  /\ getList sampleParse sampleToNumber identityHook
       (listRequest None (Some "oops") None) (freshWorld users)
     = (NextError (Raised (JStr "SyntaxError")), freshWorld users)
  /\ getList sampleParse sampleToNumber identityHook
       (listRequest None None (Some "oops")) (freshWorld users)
     = (NextError (Raised (JStr "SyntaxError")), freshWorld users).
Proof.
  split; [|split].
  - apply (proj1 (getList_parse_error sampleParse sampleToNumber identityHook
                    (listRequest (Some "oops") None None) (freshWorld users)
                    "oops" (Raised (JStr "SyntaxError")) eq_refl eq_refl)).
    reflexivity.
  - apply (proj1 (proj2 (getList_parse_error sampleParse sampleToNumber identityHook
                           (listRequest None (Some "oops") None) (freshWorld users)
                           "oops" (Raised (JStr "SyntaxError")) eq_refl eq_refl))
             (JArr [JNum 0; JNum 100]) (JNum 0, JNum 100)); reflexivity.
  - apply (proj2 (proj2 (getList_parse_error sampleParse sampleToNumber identityHook
                           (listRequest None None (Some "oops")) (freshWorld users)
                           "oops" (Raised (JStr "SyntaxError")) eq_refl eq_refl))
             (JArr [JNum 0; JNum 100]) (JArr [JStr "id"; JStr "ASC"])
             (JNum 0, JNum 100)); reflexivity.
Defined.

(** The witness of X10: an object as [range]. *)
Lemma getList_range_not_iterable_witness :
  getList sampleParse sampleToNumber identityHook
    (listRequest (Some "{}") None None) (freshWorld users)
  = (NextError TypeError_notIterable, freshWorld users).
Proof.
  apply (getList_range_not_iterable sampleParse sampleToNumber identityHook
           (listRequest (Some "{}") None None) (freshWorld users) "{}" (JObj []));
    [reflexivity|reflexivity|reflexivity|exact I].
Defined.

(** The witness of X11: an array of one number as [range]. *)
Lemma getList_short_range_witness :
  calls (snd (getList shortParse sampleToNumber identityHook
                (listRequest (Some "[5]") None None) (freshWorld users)))
  = [CallFindAndCountAll
       {| offset := JNum 5; limit := JNaN;
          order := [JArr [JStr "id"; JStr "ASC"]]; where_ := JObj []; raw := true |}].
Proof.
  apply (getList_short_range shortParse sampleToNumber identityHook
           (listRequest (Some "[5]") None None) (freshWorld users) "[5]" [JNum 5]
           (JArr [JStr "id"; JStr "ASC"]) (JObj []));
    try reflexivity.
  cbn. lia.
Defined.

(** The witness of X12: a hook that throws, on the three users. *)
Lemma getList_hook_failure_witness :
  fst (getList sampleParse sampleToNumber failingHook
         (listRequest None None None) (freshWorld users))
  = NextError (Error "hook failed")
  /\ sent (res (snd (getList sampleParse sampleToNumber failingHook
                       (listRequest None None None) (freshWorld users))))
     = None
  /\ getHeader "Content-Range"
       (res (snd (getList sampleParse sampleToNumber failingHook
                    (listRequest None None None) (freshWorld users))))
     = Some (HStr "0-3/3").
Proof.
  pose proof (getList_hook_failure sampleParse sampleToNumber failingHook
                (listRequest None None None) (freshWorld users)) as Hfailure.
  apply (Hfailure 0 100 (JArr [JStr "id"; JStr "ASC"]) (JObj []) 3
           (map Table.toJs (Table.rows users)) users (Error "hook failed"));
    try reflexivity; unfold validRange, safeInteger, MAX_SAFE_INTEGER; cbn; lia.
Defined.

(** The witness of X13: the three users, on a response that came with
    status 202. *)
Lemma getList_answer_witness :
  fst (getList sampleParse sampleToNumber identityHook
         (listRequest None None None)
         {| res := accepted; db := users; calls := [] |})
  = NotCalled
  /\ sent (res (snd (getList sampleParse sampleToNumber identityHook
                       (listRequest None None None)
                       {| res := accepted; db := users; calls := [] |})))
     = Some (JArr (map Table.toJs (Table.rows users)))
  /\ statusCode (res (snd (getList sampleParse sampleToNumber identityHook
                             (listRequest None None None)
                             {| res := accepted; db := users; calls := [] |}))) = 202
  /\ db (snd (getList sampleParse sampleToNumber identityHook
                (listRequest None None None)
                {| res := accepted; db := users; calls := [] |}))
     = users.
Proof.
  pose proof (getList_answer sampleParse sampleToNumber identityHook
                (listRequest None None None)
                {| res := accepted; db := users; calls := [] |}) as Hanswer.
  apply (Hanswer 0 100 (JArr [JStr "id"; JStr "ASC"]) (JObj [])
           (JArr (map Table.toJs (Table.rows users))) 3
           (map Table.toJs (Table.rows users)) users);
    try reflexivity; unfold validRange, safeInteger, MAX_SAFE_INTEGER; cbn; lia.
Defined.

(** The witness of X14: renaming user 2. *)
Lemma update_answers_raw_result_witness :
  sent (res (snd (update (requestFor "2") (freshWorld users))))
  = Some (JArr [JNum 1; JArr [JObj [("id", JStr "2"); ("name", JStr "zoe")]%string]])
  /\ statusCode (res (snd (update (requestFor "2") (freshWorld users)))) = 200.
Proof.
  pose proof (update_answers_raw_result (requestFor "2") (freshWorld users)) as Hupdate.
  destruct (Hupdate
              (JObj [("id", JStr "2"); ("name", JStr "bob")]%string)
              (JArr [JNum 1; JArr [JObj [("id", JStr "2"); ("name", JStr "zoe")]%string]])
              users
              (snd (Table.update (JObj [("name", JStr "zoe")]%string)
                      (JObj [("id", JStr "2")]%string) true users))
              eq_refl eq_refl) as (_ & Hsent & Hstatus & _).
  split; [exact Hsent|exact Hstatus].
Defined.

(** The witness of X15: no user 7, and [users] is as it was. *)
Lemma update_not_found_makes_no_write_witness :
  calls (snd (update (requestFor "7") (freshWorld users))) = [CallFindByPk "7" false]
  /\ db (snd (update (requestFor "7") (freshWorld users))) = users.
Proof.
  pose proof (update_not_found_makes_no_write (requestFor "7") (freshWorld users))
    as Hnone.
  exact (Hnone users eq_refl).
Defined.

(** The witness of X18: rows 1 to 2 of [users], a full page. *)
Lemma content_range_end_is_exclusive_witness :
  getHeader "Content-Range"
    (res (snd (getList sampleParse sampleToNumber identityHook pageRequest
                 (freshWorld users))))
  = Some (HStr "1-3/3").
Proof.
  pose proof (content_range_end_is_exclusive sampleParse sampleToNumber identityHook
                pageRequest (freshWorld users)) as Hend.
  apply (Hend "[1,2]"%string 1 2
           (JArr [JStr "id"; JStr "ASC"]) (JObj []) 3
           [JObj [("id", JStr "2"); ("name", JStr "bob")];
            JObj [("id", JStr "3"); ("name", JStr "cy")]]%string
           users);
    try reflexivity; unfold validRange, safeInteger, MAX_SAFE_INTEGER; lia.
Defined.
